(** * Speech expertise annotation tool: the annotation store and its callers

    A shallow embedding of [src/app.py]: the CSV-backed annotation store
    ([get_annotation], [get_annotations_for_rater], [update_annotation]),
    the speech loader ([load_speeches]) and the submit branch of the
    annotation form in [main].

    Conventions of the embedding.
    - A pandas [DataFrame] read from [ANNOTATIONS_FILE] is the list of its
      rows, in file order; the six columns are the fields of [Row].
      Identifiers and free text are strings, the score is an integer.
    - The file itself is [Missing], [Unreadable] (content on which
      [pd.read_csv] raises) or [Table df], a CSV text that [pd.read_csv]
      parses to the rows [df].  [pd.read_csv] infers the type of every
      column from the text, so a cell is read back as it was written only
      when its text cannot be taken for a number, a missing-value marker or
      a truth value; [plain_file] below names the files made of such cells,
      and every statement about the store is made for them.
    - Streamlit calls append to a [screen]; [st.stop] and [st.rerun] end the
      script run and are not caught by [except Exception]. *)

From Stdlib Require Import ZArith Ascii String.
From stdpp Require Import base option list gmap strings.

Local Open Scope Z_scope.
Local Open Scope string_scope.
Local Open Scope list_scope.

(** ** Data *)

(** One row of [annotations.csv]. *)
Record Row := mkRow {
  item_id : string;
  rater_id : string;
  score : Z;
  justification : string;
  context : string;
  statement : string;
}.

Abbreviation DataFrame := (list Row).

(** The dict returned by the two read functions:
    [{'score': ..., 'justification': ...}]. *)
Record Annotation := mkAnnotation {
  a_score : Z;
  a_justification : string;
}.

(** One element of [data['speeches']]. *)
Record Speech := mkSpeech {
  speech_id : string;
  topic : string;
  speaker : string;
  text : string;
  speech_context : list string;
}.

(** State of [ANNOTATIONS_FILE] on disk. *)
Inductive File :=
  | Missing
  | Unreadable (why : string)
  | Table (df : DataFrame).

(** State of [SPEECHES_FILE] on disk: absent; text that is not JSON
    ([json.load] raises [JSONDecodeError]); bytes that are not UTF-8 text;
    a JSON value that is not an object; or a JSON object whose ['speeches']
    entry, when there is one, is a list of speeches. *)
Inductive JsonFile :=
  | JsonMissing
  | JsonInvalid
  | JsonUndecodable
  | JsonNotObject (why : string)
  | JsonDoc (speeches : option (list Speech)).

(** The Python exceptions the modelled code can meet, each with the text
    [str(e)] gives. *)
Inductive Exn :=
  | FileNotFoundError (msg : string)
  | JSONDecodeError (msg : string)
  | KeyError (msg : string)
  | IndexError (msg : string)
  | CsvReadError (msg : string)
  | UnicodeDecodeError (msg : string)
  | TypeError (msg : string).

Definition exn_text (e : Exn) : string :=
  match e with
  | FileNotFoundError msg | JSONDecodeError msg | KeyError msg
  | IndexError msg | CsvReadError msg | UnicodeDecodeError msg
  | TypeError msg => msg
  end.

(** [st.session_state], with the three keys [main] initialises. *)
Record Session := mkSession {
  show_intro : bool;
  current_idx : Z;
  session_rater_id : string;
}.

Inductive Message :=
  | StError (body : string)
  | StInfo (body : string)
  | StSuccess (body : string).

Record World := mkWorld {
  annotations_file : File;
  speeches_file : JsonFile;
  session_state : Session;
  screen : list Message;
}.

Definition with_annotations_file (f : File) (w : World) : World :=
  mkWorld f (speeches_file w) (session_state w) (screen w).

Definition with_session_state (s : Session) (w : World) : World :=
  mkWorld (annotations_file w) (speeches_file w) s (screen w).

Definition with_screen (m : list Message) (w : World) : World :=
  mkWorld (annotations_file w) (speeches_file w) (session_state w) m.

(** ** The script monad *)

(** How a piece of the script ends: it returns, raises a Python exception,
    one of Streamlit's control calls cuts the run short, or the process is
    killed where it stands. *)
Inductive Flow (A : Type) :=
  | Return (a : A)
  | Raise (e : Exn)
  | Stop
  | Rerun
  | Killed.

Arguments Return {A} a.
Arguments Raise {A} e.
Arguments Stop {A}.
Arguments Rerun {A}.
Arguments Killed {A}.

Definition App (A : Type) : Type := World → Flow A * World.

Definition ret {A} (a : A) : App A := λ w, (Return a, w).

Definition bind {A B} (m : App A) (k : A → App B) : App B :=
  λ w, match m w with
       | (Return a, w') => k a w'
       | (Raise e, w') => (Raise e, w')
       | (Stop, w') => (Stop, w')
       | (Rerun, w') => (Rerun, w')
       | (Killed, w') => (Killed, w')
       end.

Declare Scope app_scope.
Delimit Scope app_scope with app.
Notation "x <- m ;; k" := (bind m (λ x, k))
  (at level 100, m at next level, right associativity) : app_scope.
Notation "m ;; k" := (bind m (λ _, k))
  (at level 100, right associativity) : app_scope.
Local Open Scope app_scope.

Definition raise {A} (e : Exn) : App A := λ w, (Raise e, w).

(** [try: body except ...], the [except] clauses given as a function that
    picks the handler of an exception, if one matches.  Only [Raise] is
    caught; a handler runs in the world the body left behind, and what it
    raises itself is not caught again. *)
Definition try_except {A} (body : App A) (handlers : Exn → option (App A)) : App A :=
  λ w, match body w with
       | (Raise e, w') =>
           match handlers e with
           | Some handler => handler w'
           | None => (Raise e, w')
           end
       | r => r
       end.

Definition st_error (body : string) : App unit :=
  λ w, (Return tt, with_screen (screen w ++ [StError body]) w).

Definition st_info (body : string) : App unit :=
  λ w, (Return tt, with_screen (screen w ++ [StInfo body]) w).

Definition st_success (body : string) : App unit :=
  λ w, (Return tt, with_screen (screen w ++ [StSuccess body]) w).

Definition st_stop {A} : App A := λ w, (Stop, w).

Definition st_rerun {A} : App A := λ w, (Rerun, w).

(** ** Primitives on [ANNOTATIONS_FILE] *)

(** [ANNOTATIONS_FILE.exists()] *)
Definition path_exists : App bool :=
  λ w, (Return (match annotations_file w with Missing => false | _ => true end), w).

(** [pd.read_csv(ANNOTATIONS_FILE)] *)
Definition read_csv : App DataFrame :=
  λ w, match annotations_file w with
       | Table df => (Return df, w)
       | Unreadable why => (Raise (CsvReadError why), w)
       | Missing => (Raise (FileNotFoundError "No such file or directory"), w)
       end.

(** [df.to_csv(ANNOTATIONS_FILE, index=False)] opens the target path itself
    for writing, which empties it, and then writes the frame into it.  An
    empty file is one [pd.read_csv] refuses. *)
Definition open_for_writing : App unit :=
  λ w, (Return tt, with_annotations_file (Unreadable "No columns to parse from file") w).

Definition write_frame (df : DataFrame) : App unit :=
  λ w, (Return tt, with_annotations_file (Table df) w).

Definition to_csv (df : DataFrame) : App unit :=
  open_for_writing ;; write_frame df.

(** [ANNOTATIONS_FILE.parent.mkdir(parents=True, exist_ok=True)]: the
    directory is no part of the world, the call changes nothing in it. *)
Definition mkdir_parent : App unit := ret tt.

(** The same call in a run that is killed once the file is open and before
    the frame is in it. *)
Definition killed : App unit := λ w, (Killed, w).

Definition to_csv_cut_short (df : DataFrame) : App unit :=
  open_for_writing ;; killed ;; write_frame df.

(** ** Frame operations *)

Abbreviation Mask := (list bool).

(** [(df['item_id'] == item) & (df['rater_id'] == rater)] *)
Definition key_mask (df : DataFrame) (item rater : string) : Mask :=
  zip_with andb
    (map (λ r, bool_decide (item_id r = item)) df)
    (map (λ r, bool_decide (rater_id r = rater)) df).

(** [df['rater_id'] == rater] *)
Definition rater_mask (df : DataFrame) (rater : string) : Mask :=
  map (λ r, bool_decide (rater_id r = rater)) df.

(** [mask.any()] *)
Definition mask_any (m : Mask) : bool := existsb id m.

(** [df[mask]] *)
Fixpoint df_select (df : DataFrame) (m : Mask) : DataFrame :=
  match df, m with
  | r :: df', b :: m' => if b then r :: df_select df' m' else df_select df' m'
  | _, _ => []
  end.

(** [df.loc[mask, col] = v], where [set] writes [v] into column [col]. *)
Fixpoint loc_set (set : Row → Row) (df : DataFrame) (m : Mask) : DataFrame :=
  match df, m with
  | r :: df', b :: m' => (if b then set r else r) :: loc_set set df' m'
  | _, _ => df
  end.

Definition set_score (v : Z) (r : Row) : Row :=
  mkRow (item_id r) (rater_id r) v (justification r) (context r) (statement r).
Definition set_justification (v : string) (r : Row) : Row :=
  mkRow (item_id r) (rater_id r) (score r) v (context r) (statement r).
Definition set_context (v : string) (r : Row) : Row :=
  mkRow (item_id r) (rater_id r) (score r) (justification r) v (statement r).
Definition set_statement (v : string) (r : Row) : Row :=
  mkRow (item_id r) (rater_id r) (score r) (justification r) (context r) v.

(** [frame.iloc[0]] *)
Definition iloc0 (df : DataFrame) : App Row :=
  match df with
  | r :: _ => ret r
  | [] => raise (IndexError "single positional indexer is out-of-bounds")
  end.

(** ** The annotation store *)

(** [int(v)] on a cell of an integer column and [str(v)] on a cell of a
    text column give the value itself. *)
Definition py_int (v : Z) : Z := v.
Definition py_str (v : string) : string := v.

Definition get_annotation (item rater : string) : App (option Annotation) :=
  ex <- path_exists ;;
  if negb ex then ret None
  else
    try_except
      (df <- read_csv ;;
       let mask := key_mask df item rater in
       if mask_any mask then
         row <- iloc0 (df_select df mask) ;;
         ret (Some (mkAnnotation (py_int (score row)) (py_str (justification row))))
       else ret None)
      (λ e, Some (st_error ("Error reading annotations: " ++ exn_text e) ;; ret None)).

Definition get_annotations_for_rater (rater : string) : App (gmap string Annotation) :=
  ex <- path_exists ;;
  if negb ex then ret ∅
  else
    try_except
      (df <- read_csv ;;
       let rater_df := df_select df (rater_mask df rater) in
       ret (foldl (λ annotations row,
                     <[item_id row := mkAnnotation (py_int (score row)) (justification row)]>
                       annotations)
                  ∅ rater_df))
      (λ e, Some (st_error ("Error reading annotations: " ++ exn_text e) ;; ret ∅)).

(** [update_annotation], with the call that persists the frame as a
    parameter: the source passes [df.to_csv(ANNOTATIONS_FILE, index=False)]
    at both places. *)
Definition update_annotation_with (persist : DataFrame → App unit)
    (item rater : string) (sc : Z) (just ctx stmt : string) : App unit :=
  ex <- path_exists ;;
  if negb ex then
    let annotation := mkRow item rater sc just ctx stmt in
    let df := [annotation] in
    mkdir_parent ;;
    persist df
  else
    df <- read_csv ;;
    let mask := key_mask df item rater in
    let df :=
      if mask_any mask then
        let df := loc_set (set_score sc) df mask in
        let df := loc_set (set_justification just) df mask in
        let df := loc_set (set_context ctx) df mask in
        loc_set (set_statement stmt) df mask
      else
        let new_row := [mkRow item rater sc just ctx stmt] in
        df ++ new_row in
    persist df.

Definition update_annotation := update_annotation_with to_csv.

(** ** The speech source *)

(** The text of [SPEECHES_FILE] in the two messages of [load_speeches].
    The module builds the path from the directory the application is
    installed in; the literal stands for it, and no statement below
    depends on its text. *)
Definition SPEECHES_FILE : string := "data/sampled_speeches.json".

Definition TEST_MODE : bool := true.
Definition TEST_SPEECHES_COUNT : Z := 3.

(** What [json.load] returns: a JSON object, reduced to its ['speeches']
    entry, or some other JSON value. *)
Inductive Document :=
  | DocObject (speeches : option (list Speech))
  | DocOther (why : string).

(** [with open(SPEECHES_FILE, 'r', encoding='utf-8') as f: data = json.load(f)] *)
Definition json_load : App Document :=
  λ w, match speeches_file w with
       | JsonMissing => (Raise (FileNotFoundError "No such file or directory"), w)
       | JsonInvalid => (Raise (JSONDecodeError "Expecting value"), w)
       | JsonUndecodable => (Raise (UnicodeDecodeError "invalid start byte"), w)
       | JsonNotObject why => (Return (DocOther why), w)
       | JsonDoc d => (Return (DocObject d), w)
       end.

(** [data['speeches']] *)
Definition speeches_entry (d : Document) : App (list Speech) :=
  match d with
  | DocObject (Some l) => ret l
  | DocObject None => raise (KeyError "'speeches'")
  | DocOther why => raise (TypeError why)
  end.

(** The Python slice [l[:n]]: a negative [n] counts from the end. *)
Definition slice_to {A} (l : list A) (n : Z) : list A :=
  if (0 <=? n)%Z then take (Z.to_nat n) l
  else take (length l - Z.to_nat (- n))%nat l.

(** [load_speeches], the two module constants it reads as parameters. *)
Definition load_speeches_with (test_mode : bool) (count : Z) : App (list Speech) :=
  try_except
    (data <- json_load ;;
     speeches <- speeches_entry data ;;
     let speeches := if test_mode then slice_to speeches count else speeches in
     ret speeches)
    (λ e, match e with
          | FileNotFoundError _ =>
              Some (st_error ("❌ File not found: " ++ SPEECHES_FILE) ;;
                    st_info "Please copy sampled_speeches.json to the data/ directory" ;;
                    st_stop)
          | JSONDecodeError _ =>
              Some (st_error ("❌ Invalid JSON file: " ++ SPEECHES_FILE) ;;
                    st_info "The JSON file appears to be empty or corrupted." ;;
                    st_stop)
          | _ => None
          end).

Definition load_speeches : App (list Speech) :=
  load_speeches_with TEST_MODE TEST_SPEECHES_COUNT.

(** ** The submit branch of the annotation form *)

(** [str.isspace] on one character of the ASCII range: tab to carriage
    return, the four separators 28 to 31, and the space.  Python counts
    further characters beyond that range as white space; statements about
    [strip] are made for text of the ASCII range. *)
Definition isspace (c : ascii) : bool :=
  let n := nat_of_ascii c in
  ((9 <=? n)%nat && (n <=? 13)%nat) || ((28 <=? n)%nat && (n <=? 32)%nat).

Fixpoint lstrip (s : string) : string :=
  match s with
  | EmptyString => EmptyString
  | String c s' => if isspace c then lstrip s' else s
  end.

Definition rstrip (s : string) : string :=
  String.rev (lstrip (String.rev s)).

(** [s.strip()] *)
Definition strip (s : string) : string := rstrip (lstrip s).

(** Truth value of a Python string: non-empty. *)
Definition str_truthy (s : string) : bool :=
  match s with EmptyString => false | String _ _ => true end.

(** Truth value of a Python list: non-empty. *)
Definition list_truthy {A} (l : list A) : bool :=
  match l with [] => false | _ :: _ => true end.

(** [st.session_state.current_idx += 1] *)
Definition advance_current_idx : App unit :=
  λ w, let s := session_state w in
       (Return tt,
        with_session_state (mkSession (show_intro s) (current_idx s + 1) (session_rater_id s)) w).

(** The body of [with st.form(...)] in [main] from [if submitted:] on.
    [current_speech], [current_idx], [total_speeches] and [rater_id] are the
    locals [main] computed before it drew the form; [sc] and [just] are
    what the slider and the text area hold. *)
Definition form_submitted (current_speech : Speech) (current_idx_ total_speeches : Z)
    (rater : string) (sc : Z) (just : string) (submitted : bool) : App unit :=
  if submitted then
    if negb (str_truthy (strip just)) then
      st_error "❌ Please provide a justification for your score"
    else
      let context_str :=
        if list_truthy (speech_context current_speech)
        then String.concat " | " (speech_context current_speech)
        else "" in
      update_annotation (speech_id current_speech) rater sc (strip just)
                        context_str (text current_speech) ;;
      st_success "✅ Annotation saved!" ;;
      (if (current_idx_ <? total_speeches - 1)%Z then advance_current_idx else ret tt) ;;
      st_rerun
  else ret tt.

(** ** The cursor and the progress count in [main] *)

(** [len(l)] *)
Definition len {A} (l : list A) : Z := Z.of_nat (length l).

(** [l[i]] on a Python list: a negative index counts from the end, an index
    outside the list raises. *)
Definition py_index {A} (l : list A) (i : Z) : App A :=
  let j := if (i <? 0)%Z then (i + len l)%Z else i in
  if (0 <=? j)%Z && (j <? len l)%Z then
    match l !! Z.to_nat j with
    | Some x => ret x
    | None => raise (IndexError "list index out of range")
    end
  else raise (IndexError "list index out of range").

(** [sum(...)] over integers. *)
Definition py_sum (l : list Z) : Z := foldl Z.add 0%Z l.

(** [st.session_state.current_idx] *)
Definition read_current_idx : App Z :=
  λ w, (Return (current_idx (session_state w)), w).

(** [st.session_state.current_idx = v] *)
Definition set_current_idx (v : Z) : App unit :=
  λ w, let s := session_state w in
       (Return tt, with_session_state (mkSession (show_intro s) v (session_rater_id s)) w).

(** [st.session_state.current_idx -= 1] *)
Definition retreat_current_idx : App unit :=
  λ w, let s := session_state w in
       (Return tt,
        with_session_state (mkSession (show_intro s) (current_idx s - 1) (session_rater_id s)) w).

(** What [st.button(label, disabled=d)] returns in a run: [True] only when
    the button was clicked, which a disabled button cannot be. *)
Definition st_button (clicked disabled : bool) : bool := clicked && negb disabled.

(** [main] from [speeches = load_speeches()] to the count of completed
    speeches; the pair returned is [(total_speeches, completed)], next to
    the speeches themselves. *)
Definition progress (rater : string) : App (list Speech * Z * Z) :=
  speeches <- load_speeches ;;
  let total_speeches := len speeches in
  annotations <- get_annotations_for_rater rater ;;
  let speech_ids_to_annotate := map speech_id speeches in
  let completed :=
    py_sum (map (λ _, 1%Z)
              (filter (λ sid, is_Some (annotations !! sid)) speech_ids_to_annotate)) in
  ret (speeches, total_speeches, completed).

(** The test [completed >= total_speeches] that ends the run on the
    completion page. *)
Definition all_completed (completed total_speeches : Z) : bool :=
  (completed >=? total_speeches)%Z.

(** [main] from [current_idx = st.session_state.current_idx] to
    [current_speech = speeches[current_idx]]. *)
Definition select_current_speech (speeches : list Speech) (total_speeches : Z)
    : App (Z * Speech) :=
  current_idx_ <- read_current_idx ;;
  current_idx_ <-
    (if (current_idx_ <? 0)%Z then
       set_current_idx 0 ;; ret 0%Z
     else if (current_idx_ >=? total_speeches)%Z then
       let current_idx_ := (total_speeches - 1)%Z in
       set_current_idx current_idx_ ;; ret current_idx_
     else ret current_idx_) ;;
  current_speech <- py_index speeches current_idx_ ;;
  ret (current_idx_, current_speech).

(** The two navigation buttons of [main]. *)
Definition navigation_buttons (current_idx_ total_speeches : Z)
    (previous_clicked next_clicked : bool) : App unit :=
  (if st_button previous_clicked (current_idx_ =? 0)%Z
   then retreat_current_idx ;; st_rerun
   else ret tt) ;;
  (if st_button next_clicked (current_idx_ >=? total_speeches - 1)%Z
   then advance_current_idx ;; st_rerun
   else ret tt).

(** * Vocabulary of the statements *)

Definition row_key (r : Row) : string * string := (item_id r, rater_id r).

Definition has_key (item rater : string) (r : Row) : bool :=
  bool_decide (row_key r = (item, rater)).

(** The rows a file holds; a file that is absent or cannot be read holds none. *)
Definition rows_of (f : File) : DataFrame :=
  match f with Table df => df | _ => [] end.

(** The files [update_annotation] can work on: absent, or a table. *)
Definition usable (f : File) : Prop :=
  match f with Unreadable _ => False | _ => True end.

(** The frame [update_annotation] writes when it has read [df]. *)
Definition upserted (item rater : string) (sc : Z) (just ctx stmt : string)
    (df : DataFrame) : DataFrame :=
  if existsb (has_key item rater) df
  then map (λ r, if has_key item rater r then mkRow item rater sc just ctx stmt else r) df
  else df ++ [mkRow item rater sc just ctx stmt].

Definition annotation_of (r : Row) : Annotation :=
  mkAnnotation (score r) (justification r).

(** The dict built by the loop over [rater_df.iterrows()]. *)
Definition collect (rows : DataFrame) : gmap string Annotation :=
  foldl (λ annotations row, <[item_id row := annotation_of row]> annotations) ∅ rows.

(** The arguments of one call of [update_annotation]. *)
Record Call := mkCall {
  call_item : string;
  call_rater : string;
  call_score : Z;
  call_justification : string;
  call_context : string;
  call_statement : string;
}.

Definition call_key (c : Call) : string * string := (call_item c, call_rater c).

(** The calls made one after the other, as successive submissions make them. *)
Fixpoint upserts (calls : list Call) : App unit :=
  match calls with
  | [] => ret tt
  | c :: calls' =>
      update_annotation (call_item c) (call_rater c) (call_score c)
        (call_justification c) (call_context c) (call_statement c) ;;
      upserts calls'
  end.

(** The file is not there, or it is a table without a row satisfying [P]. *)
Definition holds_none (P : Row → Prop) (f : File) : Prop :=
  f = Missing ∨ ∃ df, f = Table df ∧ Forall (λ r, ¬ P r) df.

(** *** Text that [pd.read_csv] reads back as written *)

Definition char_code (c : ascii) : nat := nat_of_ascii c.

(** The visible characters of the ASCII range, the space included. *)
Definition printable (c : ascii) : bool :=
  (32 <=? char_code c)%nat && (char_code c <=? 126)%nat.

(** The characters a number is written with: digits, signs, the point, the
    exponent letter and the space. *)
Definition numeric_char (c : ascii) : bool :=
  let n := char_code c in
  ((48 <=? n)%nat && (n <=? 57)%nat)
  || (n =? 43)%nat || (n =? 45)%nat || (n =? 46)%nat
  || (n =? 101)%nat || (n =? 69)%nat || (n =? 32)%nat.

Definition to_lower (c : ascii) : ascii :=
  let n := char_code c in
  if (65 <=? n)%nat && (n <=? 90)%nat then ascii_of_nat (n + 32) else c.

Definition lowercase (s : string) : string :=
  string_of_list_ascii (map to_lower (list_ascii_of_string s)).

(** In lower case: the markers [pd.read_csv] reads as a missing value, the
    two truth values and the names of infinity. *)
Definition reserved_words : list string :=
  ["#n/a"; "#n/a n/a"; "#na"; "-1.#ind"; "-1.#qnan"; "-nan"; "1.#ind"; "1.#qnan";
   "<na>"; "n/a"; "na"; "null"; "nan"; "none"; "true"; "false";
   "inf"; "+inf"; "-inf"; "infinity"; "+infinity"; "-infinity"].

(** A cell text that is read back as the same text: visible ASCII
    characters, not all of them characters of a number (so not empty), and,
    white space at the ends and case set aside, none of the reserved
    words. *)
Definition plain_text (s : string) : bool :=
  forallb printable (list_ascii_of_string s)
  && negb (forallb numeric_char (list_ascii_of_string s))
  && negb (existsb (String.eqb (lowercase (strip s))) reserved_words).

(** A score that fits the 64-bit integer column. *)
Definition int64 (z : Z) : bool :=
  (-9223372036854775808 <=? z)%Z && (z <=? 9223372036854775807)%Z.

Definition plain_row (r : Row) : bool :=
  plain_text (item_id r) && plain_text (rater_id r) && int64 (score r)
  && plain_text (justification r) && plain_text (context r) && plain_text (statement r).

(** Every row of the file is read back as written. *)
Definition plain_file (f : File) : Prop := forallb plain_row (rows_of f) = true.

Definition plain_call (c : Call) : bool :=
  plain_row (mkRow (call_item c) (call_rater c) (call_score c)
               (call_justification c) (call_context c) (call_statement c)).

(** Text of the ASCII range. *)
Definition ascii_text (s : string) : bool :=
  forallb (λ c, (char_code c <? 128)%nat) (list_ascii_of_string s).

(** The cursor points at one of [total] speeches. *)
Definition cursor_in_range (total : Z) (w : World) : Prop :=
  (0 ≤ current_idx (session_state w) < total)%Z.

(** Neither the first nor the last character of [s] is white space. *)
Definition trimmed (s : string) : Prop :=
  ∀ c, head (list_ascii_of_string s) = Some c ∨ last (list_ascii_of_string s) = Some c →
       isspace c = false.

(** ** Sample worlds *)

Definition fresh_session : Session := mkSession false 0 "r1".

Definition world_with (f : File) : World := mkWorld f JsonMissing fresh_session [].

(** A table in which the pair (s1, r1) already appears twice. *)
Definition duplicated_table : File :=
  Table [mkRow "s1" "r1" 4 "first" "c" "s"; mkRow "s1" "r1" 1 "second" "c" "s"].

Definition numbered_speech (n : string) : Speech :=
  mkSpeech n "topic" "speaker" "text" [].

Definition ten_speeches : list Speech :=
  map numbered_speech ["0"; "1"; "2"; "3"; "4"; "5"; "6"; "7"; "8"; "9"].

(** Four speeches whose identifiers are plain text. *)
Definition named_speeches : list Speech :=
  map numbered_speech ["s0"; "s1"; "s2"; "s3"].

(** * Properties *)

(** ** Keys, masks and frames *)

Section Frames.
Implicit Types (df : DataFrame) (r : Row) (item rater : string).

Lemma has_key_true item rater r :
  has_key item rater r = true ↔ row_key r = (item, rater).
Proof. unfold has_key. apply bool_decide_eq_true. Qed.

Lemma has_key_false item rater r :
  has_key item rater r = false ↔ row_key r ≠ (item, rater).
Proof. unfold has_key. apply bool_decide_eq_false. Qed.

Lemma key_mask_has_key df item rater :
  key_mask df item rater = map (has_key item rater) df.
Proof.
  unfold key_mask. induction df as [|r df IH]; simpl; [done|].
  rewrite IH. f_equal. unfold has_key, row_key.
  destruct (decide (item_id r = item)) as [Hi|Hi];
    destruct (decide (rater_id r = rater)) as [Hr|Hr];
    repeat (rewrite ?bool_decide_eq_true_2, ?bool_decide_eq_false_2 by congruence);
    try reflexivity.
Qed.

Lemma mask_any_map (f : Row → bool) df :
  mask_any (map f df) = existsb f df.
Proof. unfold mask_any. induction df as [|r df IH]; simpl; [done|]. by rewrite IH. Qed.

Lemma df_select_map (f : Row → bool) df :
  df_select df (map f df) = filter (λ r, f r = true) df.
Proof.
  induction df as [|r df IH]; [done|].
  rewrite filter_cons. cbn [map df_select]. rewrite IH.
  destruct (f r); [by rewrite decide_True|by rewrite decide_False].
Qed.

Lemma loc_set_map (set g : Row → Row) (f : Row → bool) df :
  loc_set set (map g df) (map f df) = map (λ r, if f r then set (g r) else g r) df.
Proof. induction df as [|r df IH]; simpl; [done|]. by rewrite IH. Qed.

Lemma loc_set_all_columns item rater sc just ctx stmt df :
  let mask := key_mask df item rater in
  loc_set (set_statement stmt)
    (loc_set (set_context ctx)
       (loc_set (set_justification just)
          (loc_set (set_score sc) df mask) mask) mask) mask
  = map (λ r, if has_key item rater r then mkRow item rater sc just ctx stmt else r) df.
Proof.
  intros mask. subst mask. rewrite key_mask_has_key.
  rewrite <- (map_id df) at 1.
  rewrite !loc_set_map. apply map_ext. intros r.
  destruct (has_key item rater r) eqn:E; [|done].
  apply has_key_true in E. unfold row_key in E. injection E as <- <-. done.
Qed.
End Frames.

(** ** What one call of [update_annotation] does *)

Section UpdateAnnotation.
Variables (item rater : string) (sc : Z) (just ctx stmt : string).

Let new_row := mkRow item rater sc just ctx stmt.

Lemma update_annotation_with_Missing persist w :
  annotations_file w = Missing →
  update_annotation_with persist item rater sc just ctx stmt w = persist [new_row] w.
Proof.
  intros Hf. unfold update_annotation_with, bind, path_exists. by rewrite Hf.
Qed.

Lemma update_annotation_with_Table persist w df :
  annotations_file w = Table df →
  update_annotation_with persist item rater sc just ctx stmt w
  = persist (upserted item rater sc just ctx stmt df) w.
Proof.
  intros Hf. unfold update_annotation_with, bind, path_exists, read_csv.
  rewrite Hf. cbn [negb]. rewrite Hf. unfold upserted.
  rewrite loc_set_all_columns, key_mask_has_key, mask_any_map. done.
Qed.

Lemma update_annotation_with_Unreadable persist w why :
  annotations_file w = Unreadable why →
  update_annotation_with persist item rater sc just ctx stmt w
  = (Raise (CsvReadError why), w).
Proof.
  intros Hf. unfold update_annotation_with, bind, path_exists, read_csv.
  rewrite Hf. cbn [negb]. by rewrite Hf.
Qed.

Lemma to_csv_run df w :
  to_csv df w = (Return tt, with_annotations_file (Table df) w).
Proof. reflexivity. Qed.

(** On a file that is absent or a table the call returns, and the file
    then holds the upserted frame; nothing else in the world moves. *)
Lemma update_annotation_run w :
  usable (annotations_file w) →
  update_annotation item rater sc just ctx stmt w
  = (Return tt,
     with_annotations_file
       (Table (upserted item rater sc just ctx stmt (rows_of (annotations_file w)))) w).
Proof.
  intros Hu. unfold update_annotation.
  destruct (annotations_file w) as [|why|df] eqn:Hf; [|done|].
  - by rewrite update_annotation_with_Missing.
  - by rewrite (update_annotation_with_Table _ _ df).
Qed.
End UpdateAnnotation.

(** ** Lists of rows under [upserted] *)

Section Upserted.
Variables (item rater : string) (sc : Z) (just ctx stmt : string).
Implicit Types (df : DataFrame) (r : Row).

Let new_row := mkRow item rater sc just ctx stmt.
Let put := upserted item rater sc just ctx stmt.
Let mine := λ r, row_key r = (item, rater).

Lemma existsb_has_key_false df :
  existsb (has_key item rater) df = false ↔ Forall (λ r, ¬ mine r) df.
Proof.
  induction df as [|r df IH]; simpl.
  - split; [constructor|done].
  - rewrite orb_false_iff, IH, Forall_cons, has_key_false. done.
Qed.

Lemma filter_mine_none df :
  Forall (λ r, ¬ mine r) df → filter mine df = [].
Proof.
  induction 1 as [|r df Hr _ IH]; [done|].
  rewrite filter_cons, decide_False by done. done.
Qed.

Lemma filter_mine_overwritten df :
  filter mine (map (λ r, if has_key item rater r then new_row else r) df)
  = map (λ _, new_row) (filter mine df).
Proof.
  induction df as [|r df IH]; [done|].
  cbn [map]. rewrite !filter_cons, IH.
  destruct (has_key item rater r) eqn:E.
  - apply has_key_true in E. rewrite !decide_True by done. done.
  - apply has_key_false in E. rewrite !decide_False by done. done.
Qed.

Lemma filter_other_overwritten (P : Row → Prop) `{∀ r, Decision (P r)} df :
  (∀ r, P r → ¬ mine r) → ¬ P new_row →
  filter P (map (λ r, if has_key item rater r then new_row else r) df) = filter P df.
Proof.
  intros HP Hn. induction df as [|r df IH]; [done|].
  cbn [map]. rewrite !filter_cons, IH.
  destruct (has_key item rater r) eqn:E; [|done].
  apply has_key_true in E.
  rewrite decide_False by done. rewrite decide_False; [done|]. intros Hr. by apply (HP r).
Qed.

Lemma keys_overwritten df :
  map row_key (map (λ r, if has_key item rater r then new_row else r) df) = map row_key df.
Proof.
  rewrite map_map. apply map_ext. intros r.
  destruct (has_key item rater r) eqn:E; [|done]. apply has_key_true in E. by rewrite E.
Qed.

(** Rows of the key after the call: as many as before, but at least one,
    and every one of them is the row just written. *)
Lemma filter_mine_upserted df :
  filter mine (put df) = replicate (max 1 (length (filter mine df))) new_row.
Proof.
  unfold put, upserted. destruct (existsb (has_key item rater) df) eqn:E.
  - fold new_row. rewrite filter_mine_overwritten.
    apply existsb_exists in E as (r & Hin & Hr). apply has_key_true in Hr.
    assert (length (filter mine df) ≠ 0%nat) as Hlen.
    { intros H0. apply nil_length_inv in H0.
      assert (r ∈ filter mine df) as Hel by (apply list_elem_of_filter; split; [done|by apply list_elem_of_In]).
      rewrite H0 in Hel. by apply not_elem_of_nil in Hel. }
    replace (max 1 (length (filter mine df))) with (length (filter mine df)) by lia.
    clear. induction (filter mine df) as [|x l IH]; [done|]. simpl. by rewrite IH.
  - apply existsb_has_key_false in E. rewrite filter_app, (filter_mine_none df E).
    rewrite filter_cons, decide_True by done. done.
Qed.

Lemma keys_upserted df :
  map row_key (put df)
  = if existsb (has_key item rater) df then map row_key df
    else map row_key df ++ [(item, rater)].
Proof.
  unfold put, upserted. destruct (existsb (has_key item rater) df).
  - apply keys_overwritten.
  - by rewrite map_app.
Qed.

Lemma existsb_upserted df : existsb (has_key item rater) (put df) = true.
Proof.
  apply existsb_exists. unfold put, upserted.
  destruct (existsb (has_key item rater) df) eqn:E.
  - apply existsb_exists in E as (r & Hin & Hr).
    exists new_row. split; [|by apply has_key_true].
    apply in_map_iff. exists r. by rewrite Hr.
  - exists new_row. split; [|by apply has_key_true]. apply in_or_app. right. by left.
Qed.

(** A second call with the same arguments rewrites the frame to itself. *)
Lemma upserted_twice df : put (put df) = put df.
Proof.
  unfold put at 1. unfold upserted. fold put. rewrite existsb_upserted.
  unfold put, upserted. destruct (existsb (has_key item rater) df) eqn:E.
  - rewrite map_map. apply map_ext. intros r.
    destruct (has_key item rater r) eqn:Er; [|by rewrite Er].
    by replace (has_key item rater (mkRow item rater sc just ctx stmt)) with true
      by (symmetry; by apply has_key_true).
  - apply existsb_has_key_false in E. rewrite map_app. cbn [map].
    replace (has_key item rater (mkRow item rater sc just ctx stmt)) with true
      by (symmetry; by apply has_key_true).
    f_equal. rewrite <- (map_id df) at 2. apply map_ext_in.
    intros r Hin. rewrite Forall_forall in E.
    destruct (has_key item rater r) eqn:Er; [|done].
    apply has_key_true in Er. exfalso. apply (E r); [by apply list_elem_of_In|done].
Qed.
End Upserted.

(** ** Plain files stay plain *)

Lemma plain_row_fields (r : Row) :
  plain_row r = true
  ↔ plain_text (item_id r) = true ∧ plain_text (rater_id r) = true ∧ int64 (score r) = true
    ∧ plain_text (justification r) = true ∧ plain_text (context r) = true
    ∧ plain_text (statement r) = true.
Proof. unfold plain_row. rewrite !andb_true_iff. tauto. Qed.

Lemma plain_file_upserted (item rater : string) (sc : Z) (just ctx stmt : string)
    (df : DataFrame) :
  forallb plain_row df = true →
  plain_row (mkRow item rater sc just ctx stmt) = true →
  forallb plain_row (upserted item rater sc just ctx stmt df) = true.
Proof.
  intros Hdf Hnew. unfold upserted. destruct (existsb (has_key item rater) df).
  - rewrite forallb_forall in Hdf |- *. intros r Hin.
    apply in_map_iff in Hin as (r0 & <- & Hin0).
    destruct (has_key item rater r0); [done|by apply Hdf].
  - rewrite forallb_app, Hdf. simpl. by rewrite Hnew.
Qed.

(** ** What the two read functions return *)

Section Reads.
Implicit Types (df : DataFrame) (w : World).

Lemma get_annotation_Missing item rater w :
  annotations_file w = Missing →
  get_annotation item rater w = (Return None, w).
Proof. intros Hf. unfold get_annotation, bind, path_exists. by rewrite Hf. Qed.

(** On a table the lookup returns the first row of the key, if any, and
    shows nothing. *)
Lemma get_annotation_Table item rater w df :
  annotations_file w = Table df →
  get_annotation item rater w
  = (Return (annotation_of <$> head (filter (λ r, row_key r = (item, rater)) df)), w).
Proof.
  intros Hf. unfold get_annotation, bind, path_exists, try_except, read_csv.
  rewrite Hf. cbn [negb]. rewrite Hf.
  rewrite key_mask_has_key, mask_any_map, df_select_map.
  assert (filter (λ r, has_key item rater r = true) df
          = filter (λ r, row_key r = (item, rater)) df) as ->.
  { apply list_filter_iff. intros r. apply has_key_true. }
  destruct (existsb (has_key item rater) df) eqn:E.
  - apply existsb_exists in E as (r & Hin & Hr). apply has_key_true in Hr.
    destruct (filter (λ r, row_key r = (item, rater)) df) as [|r0 l] eqn:Efil; [|done].
    exfalso. assert (r ∈ filter (λ r, row_key r = (item, rater)) df) as Hel.
    { apply list_elem_of_filter. split; [done|by apply list_elem_of_In]. }
    rewrite Efil in Hel. by apply not_elem_of_nil in Hel.
  - apply existsb_has_key_false in E. by rewrite (filter_mine_none _ _ _ E).
Qed.

Lemma get_annotation_Unreadable item rater w why :
  annotations_file w = Unreadable why →
  get_annotation item rater w
  = (Return None,
     with_screen (screen w ++ [StError ("Error reading annotations: " ++ why)]) w).
Proof.
  intros Hf. unfold get_annotation, bind, path_exists, try_except, read_csv.
  rewrite Hf. cbn [negb]. by rewrite Hf.
Qed.

Lemma get_annotations_for_rater_Missing rater w :
  annotations_file w = Missing →
  get_annotations_for_rater rater w = (Return ∅, w).
Proof. intros Hf. unfold get_annotations_for_rater, bind, path_exists. by rewrite Hf. Qed.

Lemma get_annotations_for_rater_Table rater w df :
  annotations_file w = Table df →
  get_annotations_for_rater rater w
  = (Return (collect (filter (λ r, rater_id r = rater) df)), w).
Proof.
  intros Hf. unfold get_annotations_for_rater, bind, path_exists, try_except, read_csv.
  rewrite Hf. cbn [negb]. rewrite Hf. unfold rater_mask.
  rewrite df_select_map. unfold collect, annotation_of. do 3 f_equal.
  apply list_filter_iff. intros r. apply bool_decide_eq_true.
Qed.

Lemma get_annotations_for_rater_Unreadable rater w why :
  annotations_file w = Unreadable why →
  get_annotations_for_rater rater w
  = (Return ∅,
     with_screen (screen w ++ [StError ("Error reading annotations: " ++ why)]) w).
Proof.
  intros Hf. unfold get_annotations_for_rater, bind, path_exists, try_except, read_csv.
  rewrite Hf. cbn [negb]. by rewrite Hf.
Qed.

Lemma dom_foldl_insert (rows : DataFrame) (m : gmap string Annotation) :
  dom (foldl (λ annotations row, <[item_id row := annotation_of row]> annotations) m rows)
  = dom m ∪ list_to_set (map item_id rows).
Proof.
  revert m. induction rows as [|r rows IH]; intros m; simpl.
  - by rewrite (right_id_L ∅ (∪)).
  - rewrite IH, dom_insert_L.
    by rewrite (comm_L (∪) {[item_id r]} (dom m)), (assoc_L (∪)).
Qed.

(** The dict has one entry per distinct item identifier met. *)
Lemma size_collect (rows : DataFrame) :
  size (collect rows) = size (list_to_set (map item_id rows) : gset string).
Proof.
  unfold collect. rewrite <- size_dom, dom_foldl_insert, dom_empty_L.
  by rewrite (left_id_L ∅ (∪)).
Qed.
End Reads.

(** ** Overwrite on edit *)

(** C1, as amended: on a store that is absent or a table of plain rows
    holding at most one row of the pair (item, rater), with item, rater,
    context and statement plain text, writing score 5 and justification a
    and then score 2 and justification b leaves exactly one row of that
    pair, carrying 2, b and the given context and statement; the second
    call keeps the keys of all rows in their order and leaves the rows of
    other pairs as they were, so the first call's values are replaced in
    place; the table is still made of plain rows. *)
Theorem overwrite_replaces_in_place (w : World) (item rater c s : string) :
  usable (annotations_file w) →
  (length (filter (λ r, row_key r = (item, rater)) (rows_of (annotations_file w))) ≤ 1)%nat →
  plain_file (annotations_file w) →
  plain_row (mkRow item rater 5 "a" c s) = true →
  ∃ w1 w2 df1 df2,
    update_annotation item rater 5 "a" c s w = (Return tt, w1) ∧
    update_annotation item rater 2 "b" c s w1 = (Return tt, w2) ∧
    annotations_file w1 = Table df1 ∧
    annotations_file w2 = Table df2 ∧
    filter (λ r, row_key r = (item, rater)) df2 = [mkRow item rater 2 "b" c s] ∧
    map row_key df2 = map row_key df1 ∧
    filter (λ r, row_key r ≠ (item, rater)) df2 = filter (λ r, row_key r ≠ (item, rater)) df1 ∧
    plain_file (annotations_file w2).
Proof.
  intros Hu Hone Hplain Hnew.
  set (df1 := upserted item rater 5 "a" c s (rows_of (annotations_file w))).
  set (df2 := upserted item rater 2 "b" c s df1).
  exists (with_annotations_file (Table df1) w), (with_annotations_file (Table df2) w), df1, df2.
  split; [by apply update_annotation_run|].
  split; [by rewrite update_annotation_run|].
  do 2 (split; [done|]).
  assert (existsb (has_key item rater) df1 = true) as Hex by apply existsb_upserted.
  split; [|split; [|split]].
  - unfold df2. rewrite filter_mine_upserted. unfold df1. rewrite filter_mine_upserted.
    rewrite length_replicate.
    by replace (max 1 (max 1 _)) with 1%nat by lia.
  - unfold df2. by rewrite keys_upserted, Hex.
  - unfold df2, upserted. rewrite Hex.
    apply filter_other_overwritten; [tauto|]. by intros [].
  - unfold plain_file. cbn [annotations_file with_annotations_file rows_of].
    unfold df2, df1. apply plain_file_upserted; [by apply plain_file_upserted|].
    apply plain_row_fields in Hnew as (Hi & Hr & _ & _ & Hc & Hs).
    apply plain_row_fields. by repeat split.
Qed.

Lemma overwrite_replaces_in_place_witness :
  usable (annotations_file (world_with Missing)) ∧
  (length (filter (λ r, row_key r = ("s1", "r1"))
             (rows_of (annotations_file (world_with Missing)))) ≤ 1)%nat ∧
  plain_file (annotations_file (world_with Missing)) ∧
  plain_row (mkRow "s1" "r1" 5 "a" "c" "s") = true ∧
  ∃ w1 w2 df1 df2,
    update_annotation "s1" "r1" 5 "a" "c" "s" (world_with Missing) = (Return tt, w1) ∧
    update_annotation "s1" "r1" 2 "b" "c" "s" w1 = (Return tt, w2) ∧
    annotations_file w1 = Table df1 ∧
    annotations_file w2 = Table df2 ∧
    filter (λ r, row_key r = ("s1", "r1")) df2 = [mkRow "s1" "r1" 2 "b" "c" "s"] ∧
    map row_key df2 = map row_key df1 ∧
    filter (λ r, row_key r ≠ ("s1", "r1")) df2 = filter (λ r, row_key r ≠ ("s1", "r1")) df1 ∧
    plain_file (annotations_file w2).
Proof.
  split; [exact I|]. split; [vm_compute; lia|]. split; [reflexivity|]. split; [reflexivity|].
  apply (overwrite_replaces_in_place (world_with Missing) "s1" "r1" "c" "s");
    [exact I | vm_compute; lia | reflexivity | reflexivity].
Defined.

(** C1 as stated fails on a table that already holds the pair twice: both
    rows are overwritten and both stay. *)
Lemma overwrite_counterexample :
  ∃ w1 w2,
    update_annotation "s1" "r1" 5 "a" "c" "s" (world_with duplicated_table) = (Return tt, w1) ∧
    update_annotation "s1" "r1" 2 "b" "c" "s" w1 = (Return tt, w2) ∧
    annotations_file w2
    = Table [mkRow "s1" "r1" 2 "b" "c" "s"; mkRow "s1" "r1" 2 "b" "c" "s"] ∧
    length (filter (λ r, row_key r = ("s1", "r1")) (rows_of (annotations_file w2))) = 2%nat.
Proof.
  eexists _, _. split; [vm_compute; reflexivity|].
  split; [vm_compute; reflexivity|]. split; reflexivity.
Qed.

(** ** Idempotence *)

(** C3, as amended: on a store that is absent or a table of plain rows,
    with plain arguments, a second call of [update_annotation] with the
    same arguments returns and leaves the world, and so every field of
    every row, exactly as the first call left it; when the store held at
    most one row of the pair before, it holds exactly one afterwards, the
    row made of the arguments; the table is still made of plain rows. *)
Theorem upsert_idempotent (w : World) (item rater : string) (sc : Z) (just ctx stmt : string) :
  usable (annotations_file w) →
  plain_file (annotations_file w) →
  plain_row (mkRow item rater sc just ctx stmt) = true →
  ∃ w1 df1,
    update_annotation item rater sc just ctx stmt w = (Return tt, w1) ∧
    update_annotation item rater sc just ctx stmt w1 = (Return tt, w1) ∧
    annotations_file w1 = Table df1 ∧
    plain_file (annotations_file w1) ∧
    ((length (filter (λ r, row_key r = (item, rater)) (rows_of (annotations_file w))) ≤ 1)%nat →
     filter (λ r, row_key r = (item, rater)) df1 = [mkRow item rater sc just ctx stmt]).
Proof.
  intros Hu Hplain Hnew.
  set (df1 := upserted item rater sc just ctx stmt (rows_of (annotations_file w))).
  exists (with_annotations_file (Table df1) w), df1.
  split; [by apply update_annotation_run|].
  split; [|split; [done|split]].
  - rewrite update_annotation_run by done. cbn [annotations_file with_annotations_file rows_of].
    unfold df1. by rewrite upserted_twice.
  - unfold plain_file. cbn [annotations_file with_annotations_file rows_of].
    by apply plain_file_upserted.
  - intros Hone. unfold df1. rewrite filter_mine_upserted.
    by replace (max 1 _) with 1%nat by lia.
Qed.

Lemma upsert_idempotent_witness :
  usable (annotations_file (world_with (Table [mkRow "s1" "r1" 4 "old" "c" "s"]))) ∧
  plain_file (annotations_file (world_with (Table [mkRow "s1" "r1" 4 "old" "c" "s"]))) ∧
  plain_row (mkRow "s1" "r1" 3 "fine" "c" "s") = true ∧
  ∃ w1 df1,
    update_annotation "s1" "r1" 3 "fine" "c" "s"
      (world_with (Table [mkRow "s1" "r1" 4 "old" "c" "s"])) = (Return tt, w1) ∧
    update_annotation "s1" "r1" 3 "fine" "c" "s" w1 = (Return tt, w1) ∧
    annotations_file w1 = Table df1 ∧
    plain_file (annotations_file w1) ∧
    ((length (filter (λ r, row_key r = ("s1", "r1"))
                (rows_of (annotations_file
                            (world_with (Table [mkRow "s1" "r1" 4 "old" "c" "s"]))))) ≤ 1)%nat →
     filter (λ r, row_key r = ("s1", "r1")) df1 = [mkRow "s1" "r1" 3 "fine" "c" "s"]).
Proof.
  split; [exact I|]. split; [reflexivity|]. split; [reflexivity|].
  apply (upsert_idempotent (world_with (Table [mkRow "s1" "r1" 4 "old" "c" "s"]))
           "s1" "r1" 3 "fine" "c" "s"); [exact I|reflexivity|reflexivity].
Defined.

(** C3 as stated fails on a table that already holds the pair twice: after
    two identical calls the pair still has two rows. *)
Lemma upsert_idempotent_counterexample :
  ∃ w1 w2,
    update_annotation "s1" "r1" 3 "fine" "c" "s" (world_with duplicated_table) = (Return tt, w1) ∧
    update_annotation "s1" "r1" 3 "fine" "c" "s" w1 = (Return tt, w2) ∧
    length (filter (λ r, row_key r = ("s1", "r1")) (rows_of (annotations_file w2))) = 2%nat.
Proof.
  eexists _, _. split; [vm_compute; reflexivity|].
  split; [vm_compute; reflexivity|]. reflexivity.
Qed.

(** ** Round trip *)

(** [update_annotation] returns exactly on the files it can work on. *)
Lemma update_annotation_returns (w w1 : World) (item rater : string) (sc : Z)
    (just ctx stmt : string) :
  update_annotation item rater sc just ctx stmt w = (Return tt, w1) →
  usable (annotations_file w).
Proof.
  intros Hrun. destruct (annotations_file w) as [|why|df] eqn:Hf; [done| |done].
  unfold update_annotation in Hrun.
  by rewrite (update_annotation_with_Unreadable _ _ _ _ _ _ _ _ why Hf) in Hrun.
Qed.

(** X25: on a store that is absent or a table of plain rows, a call of
    [update_annotation] with plain arguments returns, and [get_annotation]
    for the same pair then returns a dict, not [None], whose score is the
    integer written and whose justification is the string written; the
    lookup shows no error. *)
Theorem round_trip (w : World) (item rater : string) (sc : Z) (just ctx stmt : string) :
  usable (annotations_file w) →
  plain_file (annotations_file w) →
  plain_row (mkRow item rater sc just ctx stmt) = true →
  ∃ w1,
    update_annotation item rater sc just ctx stmt w = (Return tt, w1) ∧
    get_annotation item rater w1 = (Return (Some (mkAnnotation sc just)), w1) ∧
    plain_file (annotations_file w1).
Proof.
  intros Hu Hplain Hnew.
  set (df1 := upserted item rater sc just ctx stmt (rows_of (annotations_file w))).
  exists (with_annotations_file (Table df1) w).
  split; [by apply update_annotation_run|]. split.
  - rewrite (get_annotation_Table _ _ _ df1) by done.
    unfold df1. rewrite filter_mine_upserted.
    destruct (max 1 _) as [|n] eqn:E; [lia|]. done.
  - unfold plain_file. cbn [annotations_file with_annotations_file rows_of].
    by apply plain_file_upserted.
Qed.

Lemma round_trip_witness :
  usable (annotations_file (world_with Missing)) ∧
  plain_file (annotations_file (world_with Missing)) ∧
  plain_row (mkRow "s1" "r1" 4 "clear terms" "c" "s") = true ∧
  ∃ w1,
    update_annotation "s1" "r1" 4 "clear terms" "c" "s" (world_with Missing) = (Return tt, w1) ∧
    get_annotation "s1" "r1" w1 = (Return (Some (mkAnnotation 4 "clear terms")), w1) ∧
    plain_file (annotations_file w1).
Proof.
  split; [exact I|]. split; [reflexivity|]. split; [reflexivity|].
  apply (round_trip (world_with Missing) "s1" "r1" 4 "clear terms" "c" "s");
    [exact I|reflexivity|reflexivity].
Defined.

(** ** Key uniqueness *)

Section KeyUniqueness.
Implicit Types (df : DataFrame) (w : World) (calls : list Call).

Lemma existsb_has_key_elem item rater df :
  existsb (has_key item rater) df = true ↔ (item, rater) ∈ map row_key df.
Proof.
  rewrite existsb_exists, list_elem_of_In, in_map_iff.
  split; intros (r & H1 & H2); exists r.
  - by apply has_key_true in H2.
  - by rewrite has_key_true.
Qed.

Lemma NoDup_keys_upserted item rater sc just ctx stmt df :
  NoDup (map row_key df) → NoDup (map row_key (upserted item rater sc just ctx stmt df)).
Proof.
  intros Hnd. rewrite keys_upserted.
  destruct (existsb (has_key item rater) df) eqn:E; [done|].
  apply NoDup_app. split; [done|]. split; [|apply NoDup_singleton].
  intros k Hk Hk'. apply list_elem_of_singleton in Hk'. subst k.
  apply existsb_has_key_elem in Hk. congruence.
Qed.

Lemma key_set_upserted item rater sc just ctx stmt df :
  (list_to_set (map row_key (upserted item rater sc just ctx stmt df)) : gset (string * string))
  = list_to_set (map row_key df) ∪ {[ (item, rater) ]}.
Proof.
  rewrite keys_upserted. destruct (existsb (has_key item rater) df) eqn:E.
  - apply existsb_has_key_elem in E.
    apply (elem_of_list_to_set (C := gset (string * string))) in E.
    symmetry. rewrite (comm_L (∪)).
    apply subseteq_union_1_L. by apply singleton_subseteq_l.
  - rewrite list_to_set_app_L. f_equal. simpl. by rewrite (right_id_L ∅ (∪)).
Qed.

(** Running any list of calls on a usable file whose pairs are distinct
    returns, keeps the pairs distinct, and adds exactly the pairs called. *)
Lemma upserts_run calls : ∀ w,
  usable (annotations_file w) →
  NoDup (map row_key (rows_of (annotations_file w))) →
  ∃ w',
    upserts calls w = (Return tt, w') ∧
    usable (annotations_file w') ∧
    NoDup (map row_key (rows_of (annotations_file w'))) ∧
    (list_to_set (map row_key (rows_of (annotations_file w'))) : gset (string * string))
    = list_to_set (map row_key (rows_of (annotations_file w))) ∪ list_to_set (map call_key calls).
Proof.
  induction calls as [|c calls IH]; intros w Hu Hnd.
  - exists w. split; [done|]. split; [done|]. split; [done|].
    simpl. by rewrite (right_id_L ∅ (∪)).
  - cbn [upserts]. unfold bind. rewrite update_annotation_run by done.
    set (w1 := with_annotations_file _ w).
    destruct (IH w1) as (w' & Hrun & Hu' & Hnd' & Hset).
    + done.
    + by apply NoDup_keys_upserted.
    + exists w'. split; [done|]. split; [done|]. split; [done|].
      rewrite Hset. cbn [w1 annotations_file with_annotations_file rows_of].
      rewrite key_set_upserted. cbn [map list_to_set]. fold (call_key c).
      by rewrite (assoc_L (∪)).
Qed.

(** Calls with plain arguments keep a plain file plain. *)
Lemma upserts_plain calls : ∀ w w',
  usable (annotations_file w) →
  plain_file (annotations_file w) →
  forallb plain_call calls = true →
  upserts calls w = (Return tt, w') →
  plain_file (annotations_file w').
Proof.
  induction calls as [|c calls IH]; intros w w' Hu Hplain Hcalls Hrun.
  - cbn in Hrun. by injection Hrun as <-.
  - cbn [forallb] in Hcalls. apply andb_true_iff in Hcalls as [Hc Hcalls].
    cbn [upserts] in Hrun. unfold bind in Hrun.
    rewrite update_annotation_run in Hrun by done.
    refine (IH _ w' _ _ Hcalls Hrun); [done|].
    unfold plain_file. cbn [annotations_file with_annotations_file rows_of].
    by apply plain_file_upserted.
Qed.
End KeyUniqueness.

(** X24: from a store that is absent or an empty table, any list of
    [update_annotation] calls with plain arguments returns and leaves as
    many rows as there are distinct (item, rater) pairs among the calls, no
    pair on two rows, every row plain. *)
Theorem key_uniqueness (w : World) (calls : list Call) :
  annotations_file w = Missing ∨ annotations_file w = Table [] →
  forallb plain_call calls = true →
  ∃ w',
    upserts calls w = (Return tt, w') ∧
    length (rows_of (annotations_file w'))
    = size (list_to_set (map call_key calls) : gset (string * string)) ∧
    NoDup (map row_key (rows_of (annotations_file w'))) ∧
    plain_file (annotations_file w').
Proof.
  intros Hstart Hcalls.
  assert (usable (annotations_file w) ∧ rows_of (annotations_file w) = []) as [Hu Hrows].
  { by destruct Hstart as [-> | ->]. }
  destruct (upserts_run calls w Hu) as (w' & Hrun & _ & Hnd & Hset).
  { rewrite Hrows. constructor. }
  exists w'. split; [done|]. split; [|split; [done|]].
  - rewrite Hrows in Hset. cbn [map list_to_set] in Hset.
    rewrite (left_id_L ∅ (∪)) in Hset. rewrite <- Hset.
    rewrite size_list_to_set by done. by rewrite length_map.
  - apply (upserts_plain calls w w'); [done| |done|done].
    unfold plain_file. by rewrite Hrows.
Qed.

Lemma key_uniqueness_witness :
  (annotations_file (world_with Missing) = Missing
   ∨ annotations_file (world_with Missing) = Table []) ∧
  forallb plain_call
    [mkCall "s1" "r1" 5 "a" "c" "s"; mkCall "s2" "r1" 3 "b" "c" "s";
     mkCall "s1" "r1" 2 "c" "c" "s"] = true ∧
  ∃ w',
    upserts [mkCall "s1" "r1" 5 "a" "c" "s"; mkCall "s2" "r1" 3 "b" "c" "s";
             mkCall "s1" "r1" 2 "c" "c" "s"] (world_with Missing) = (Return tt, w') ∧
    length (rows_of (annotations_file w'))
    = size (list_to_set (map call_key
              [mkCall "s1" "r1" 5 "a" "c" "s"; mkCall "s2" "r1" 3 "b" "c" "s";
               mkCall "s1" "r1" 2 "c" "c" "s"]) : gset (string * string)) ∧
    NoDup (map row_key (rows_of (annotations_file w'))) ∧
    plain_file (annotations_file w').
Proof.
  split; [by left|]. split; [reflexivity|].
  apply (key_uniqueness (world_with Missing)); [by left|reflexivity].
Defined.

(** ** Bulk lookup *)

(** C5, as amended: when the store is made of plain rows and its rows of
    rater r carry pairwise distinct item identifiers,
    [get_annotations_for_rater] returns a dict with as many entries as the
    store has rows of rater r. *)
Theorem bulk_lookup_size (w : World) (rater : string) :
  NoDup (map item_id (filter (λ r, rater_id r = rater) (rows_of (annotations_file w)))) →
  plain_file (annotations_file w) →
  ∃ annotations w',
    get_annotations_for_rater rater w = (Return annotations, w') ∧
    size annotations
    = length (filter (λ r, rater_id r = rater) (rows_of (annotations_file w))).
Proof.
  intros Hnd _. destruct (annotations_file w) as [|why|df] eqn:Hf.
  - eexists _, _. split; [by apply get_annotations_for_rater_Missing|]. done.
  - eexists _, _. split; [by apply (get_annotations_for_rater_Unreadable _ _ why)|]. done.
  - eexists _, _. split; [by apply (get_annotations_for_rater_Table _ _ df)|].
    cbn [rows_of] in *. rewrite size_collect, size_list_to_set by done.
    by rewrite length_map.
Qed.

Lemma bulk_lookup_size_witness :
  NoDup (map item_id (filter (λ r, rater_id r = "r1")
           (rows_of (annotations_file
              (world_with (Table [mkRow "s1" "r1" 4 "a" "c" "s"; mkRow "s1" "r2" 2 "b" "c" "s";
                                  mkRow "s2" "r1" 5 "c" "c" "s"])))))) ∧
  plain_file
    (annotations_file
       (world_with (Table [mkRow "s1" "r1" 4 "a" "c" "s"; mkRow "s1" "r2" 2 "b" "c" "s";
                           mkRow "s2" "r1" 5 "c" "c" "s"]))) ∧
  ∃ annotations w',
    get_annotations_for_rater "r1"
      (world_with (Table [mkRow "s1" "r1" 4 "a" "c" "s"; mkRow "s1" "r2" 2 "b" "c" "s";
                          mkRow "s2" "r1" 5 "c" "c" "s"])) = (Return annotations, w') ∧
    size annotations
    = length (filter (λ r, rater_id r = "r1")
        (rows_of (annotations_file
           (world_with (Table [mkRow "s1" "r1" 4 "a" "c" "s"; mkRow "s1" "r2" 2 "b" "c" "s";
                               mkRow "s2" "r1" 5 "c" "c" "s"]))))).
Proof.
  assert (NoDup (map item_id (filter (λ r, rater_id r = "r1")
           (rows_of (annotations_file
              (world_with (Table [mkRow "s1" "r1" 4 "a" "c" "s"; mkRow "s1" "r2" 2 "b" "c" "s";
                                  mkRow "s2" "r1" 5 "c" "c" "s"]))))))) as Hnd.
  { vm_compute. apply NoDup_cons. split; [|apply NoDup_singleton].
    intros Hel. apply list_elem_of_singleton in Hel. discriminate Hel. }
  split; [exact Hnd|]. split; [reflexivity|].
  apply (bulk_lookup_size _ "r1" Hnd). reflexivity.
Defined.

(** C5 as stated fails on a table that holds a pair twice: the dict keeps
    one entry per item identifier, the table has two rows of the rater. *)
Lemma bulk_lookup_counterexample :
  ∃ annotations,
    get_annotations_for_rater "r1" (world_with duplicated_table)
    = (Return annotations, world_with duplicated_table) ∧
    size annotations = 1%nat ∧
    length (filter (λ r, rater_id r = "r1") (rows_of duplicated_table)) = 2%nat.
Proof.
  eexists. split.
  { apply (get_annotations_for_rater_Table "r1" (world_with duplicated_table)).
    reflexivity. }
  split; [|reflexivity].
  rewrite size_collect. vm_compute. reflexivity.
Qed.

(** ** Absent values *)

(** Neither read function ever raises, stops or reruns: whatever the file,
    each returns a value. *)
Lemma get_annotation_returns (item rater : string) (w : World) :
  ∃ result w', get_annotation item rater w = (Return result, w').
Proof.
  destruct (annotations_file w) as [|why|df] eqn:Hf; eexists _, _.
  - by apply get_annotation_Missing.
  - by apply (get_annotation_Unreadable _ _ _ why).
  - by apply (get_annotation_Table _ _ _ df).
Qed.

Lemma get_annotations_for_rater_returns (rater : string) (w : World) :
  ∃ result w', get_annotations_for_rater rater w = (Return result, w').
Proof.
  destruct (annotations_file w) as [|why|df] eqn:Hf; eexists _, _.
  - by apply get_annotations_for_rater_Missing.
  - by apply (get_annotations_for_rater_Unreadable _ _ why).
  - by apply (get_annotations_for_rater_Table _ _ df).
Qed.

(** C6: when the store file does not exist, or is a table with no row of the
    pair (item, rater), [get_annotation] returns [None], raises nothing and
    shows nothing; when the file does not exist, or is a table with no row
    of the rater, [get_annotations_for_rater] returns the empty dict in the
    same quiet way. *)
Theorem absent_is_not_an_error (w : World) (item rater : string) :
  (holds_none (λ r, row_key r = (item, rater)) (annotations_file w) →
   get_annotation item rater w = (Return None, w)) ∧
  (holds_none (λ r, rater_id r = rater) (annotations_file w) →
   get_annotations_for_rater rater w = (Return ∅, w)).
Proof.
  split.
  - intros [Hf | (df & Hf & Hno)].
    + by apply get_annotation_Missing.
    + rewrite (get_annotation_Table _ _ _ df Hf).
      by rewrite (filter_mine_none _ _ _ Hno).
  - intros [Hf | (df & Hf & Hno)].
    + by apply get_annotations_for_rater_Missing.
    + rewrite (get_annotations_for_rater_Table _ _ df Hf).
      assert (filter (λ r, rater_id r = rater) df = []) as ->; [|done].
      clear Hf. induction Hno as [|r df Hr _ IH]; [done|].
      by rewrite filter_cons, decide_False.
Qed.

Lemma absent_is_not_an_error_witness :
  holds_none (λ r, row_key r = ("s9", "r1"))
    (annotations_file (world_with (Table [mkRow "s1" "r2" 4 "a" "c" "s"]))) ∧
  get_annotation "s9" "r1" (world_with (Table [mkRow "s1" "r2" 4 "a" "c" "s"]))
  = (Return None, world_with (Table [mkRow "s1" "r2" 4 "a" "c" "s"])) ∧
  holds_none (λ r, rater_id r = "r1")
    (annotations_file (world_with (Table [mkRow "s1" "r2" 4 "a" "c" "s"]))) ∧
  get_annotations_for_rater "r1" (world_with (Table [mkRow "s1" "r2" 4 "a" "c" "s"]))
  = (Return ∅, world_with (Table [mkRow "s1" "r2" 4 "a" "c" "s"])).
Proof.
  assert (holds_none (λ r, row_key r = ("s9", "r1"))
            (annotations_file (world_with (Table [mkRow "s1" "r2" 4 "a" "c" "s"])))) as H1.
  { right. eexists. split; [reflexivity|]. repeat constructor. discriminate. }
  assert (holds_none (λ r, rater_id r = "r1")
            (annotations_file (world_with (Table [mkRow "s1" "r2" 4 "a" "c" "s"])))) as H2.
  { right. eexists. split; [reflexivity|]. repeat constructor. discriminate. }
  split; [exact H1|]. split.
  - exact (proj1 (absent_is_not_an_error _ "s9" "r1") H1).
  - split; [exact H2|].
    exact (proj2 (absent_is_not_an_error
                    (world_with (Table [mkRow "s1" "r2" 4 "a" "c" "s"])) "s9" "r1") H2).
Defined.

(** ** Duplicate pairs under point lookup *)

(** X26: on a table of plain rows with two or more rows of the pair (item,
    rater), [get_annotation] returns the score and justification of the
    first such row in file order: no row before it has the pair, and the
    rows after it play no part. *)
Theorem first_duplicate_wins (w : World) (df : DataFrame) (item rater : string) :
  annotations_file w = Table df →
  (2 ≤ length (filter (λ r, row_key r = (item, rater)) df))%nat →
  forallb plain_row df = true →
  ∃ before r after,
    df = before ++ r :: after ∧
    Forall (λ r', row_key r' ≠ (item, rater)) before ∧
    row_key r = (item, rater) ∧
    get_annotation item rater w
    = (Return (Some (mkAnnotation (score r) (justification r))), w).
Proof.
  intros Hf Htwo _. rewrite (get_annotation_Table _ _ _ df Hf). clear Hf.
  induction df as [|r0 df IH]; [simpl in Htwo; lia|].
  rewrite filter_cons in Htwo |- *.
  destruct (decide (row_key r0 = (item, rater))) as [Hk|Hk].
  - exists [], r0, df. split; [done|]. split; [constructor|]. by split.
  - destruct (IH Htwo) as (before & r & after & -> & Hbefore & Hr & Hget).
    exists (r0 :: before), r, after. split; [done|].
    split; [by constructor|]. by split.
Qed.

Lemma first_duplicate_wins_witness :
  annotations_file (world_with duplicated_table) = duplicated_table ∧
  forallb plain_row
    [mkRow "s1" "r1" 4 "first" "c" "s"; mkRow "s1" "r1" 1 "second" "c" "s"] = true ∧
  ∃ before r after,
    [mkRow "s1" "r1" 4 "first" "c" "s"; mkRow "s1" "r1" 1 "second" "c" "s"]
    = before ++ r :: after ∧
    Forall (λ r', row_key r' ≠ ("s1", "r1")) before ∧
    row_key r = ("s1", "r1") ∧
    get_annotation "s1" "r1" (world_with duplicated_table)
    = (Return (Some (mkAnnotation (score r) (justification r))), world_with duplicated_table).
Proof.
  split; [reflexivity|]. split; [reflexivity|].
  apply (first_duplicate_wins (world_with duplicated_table) _ "s1" "r1");
    [reflexivity | vm_compute; lia | reflexivity].
Defined.

Example get_annotation_on_duplicates :
  get_annotation "s1" "r1" (world_with duplicated_table)
  = (Return (Some (mkAnnotation 4 "first")), world_with duplicated_table).
Proof. vm_compute. reflexivity. Qed.

(** ** Bounded-subset mode *)

Lemma load_speeches_with_run (test_mode : bool) (count : Z) (w : World) (speeches : list Speech) :
  speeches_file w = JsonDoc (Some speeches) →
  load_speeches_with test_mode count w
  = (Return (if test_mode then slice_to speeches count else speeches), w).
Proof.
  intros Hf. unfold load_speeches_with, try_except, bind, json_load. by rewrite Hf.
Qed.

Lemma slice_to_nat {A} (l : list A) (n : nat) : slice_to l (Z.of_nat n) = take n l.
Proof.
  unfold slice_to. rewrite (proj2 (Z.leb_le 0 (Z.of_nat n))) by lia.
  by rewrite Nat2Z.id.
Qed.

(** C7: the module is in test mode with a count of 3, so [load_speeches]
    returns the first three speeches of the file in their order, and
    nothing else, when the file holds ten; in general, test mode with a
    count of n returns the first n speeches. *)
Theorem bounded_subset (w : World) (speeches : list Speech) :
  speeches_file w = JsonDoc (Some speeches) →
  (∀ n : nat,
     load_speeches_with true (Z.of_nat n) w = (Return (take n speeches), w)) ∧
  (length speeches = 10%nat →
   ∃ s0 s1 s2 rest,
     speeches = s0 :: s1 :: s2 :: rest ∧
     length rest = 7%nat ∧
     load_speeches w = (Return [s0; s1; s2], w)).
Proof.
  intros Hf. split.
  - intros n. rewrite (load_speeches_with_run _ _ _ speeches Hf). by rewrite slice_to_nat.
  - intros Hlen.
    destruct speeches as [|s0 [|s1 [|s2 rest]]]; simpl in Hlen; try lia.
    exists s0, s1, s2, rest. split; [done|]. split; [lia|].
    unfold load_speeches. by rewrite (load_speeches_with_run _ _ _ _ Hf).
Qed.

Lemma bounded_subset_witness :
  speeches_file (mkWorld Missing (JsonDoc (Some ten_speeches)) fresh_session [])
  = JsonDoc (Some ten_speeches) ∧
  length ten_speeches = 10%nat ∧
  ∃ s0 s1 s2 rest,
    ten_speeches = s0 :: s1 :: s2 :: rest ∧
    length rest = 7%nat ∧
    load_speeches (mkWorld Missing (JsonDoc (Some ten_speeches)) fresh_session [])
    = (Return [s0; s1; s2], mkWorld Missing (JsonDoc (Some ten_speeches)) fresh_session []).
Proof.
  split; [reflexivity|]. split; [reflexivity|].
  apply (bounded_subset (mkWorld Missing (JsonDoc (Some ten_speeches)) fresh_session [])
           ten_speeches eq_refl).
  reflexivity.
Defined.

Example load_speeches_of_ten :
  load_speeches (mkWorld Missing (JsonDoc (Some ten_speeches)) fresh_session [])
  = (Return (map numbered_speech ["0"; "1"; "2"]),
     mkWorld Missing (JsonDoc (Some ten_speeches)) fresh_session []).
Proof. reflexivity. Qed.

(** ** Validation of the justification *)

Lemma lstrip_spaces (s : string) :
  Forall (λ c, isspace c = true) (list_ascii_of_string s) → lstrip s = "".
Proof.
  induction s as [|c s IH]; simpl; [done|].
  intros Hall. apply Forall_cons in Hall as [Hc Hs]. rewrite Hc. by apply IH.
Qed.

Lemma strip_spaces (s : string) :
  Forall (λ c, isspace c = true) (list_ascii_of_string s) → strip s = "".
Proof. intros Hall. unfold strip, rstrip. by rewrite (lstrip_spaces s Hall). Qed.

(** C9: when the justification is empty or made of white space only, the
    submit branch returns after showing the error under the form; the
    store file and [st.session_state], the cursor index included, are as
    before, and the run goes on without a rerun. *)
Theorem blank_justification_blocks (w : World) (current_speech : Speech)
    (idx total : Z) (rater : string) (sc : Z) (just : string) :
  Forall (λ c, isspace c = true) (list_ascii_of_string just) →
  ∃ w',
    form_submitted current_speech idx total rater sc just true w = (Return tt, w') ∧
    screen w' = screen w ++ [StError "❌ Please provide a justification for your score"] ∧
    annotations_file w' = annotations_file w ∧
    session_state w' = session_state w ∧
    speeches_file w' = speeches_file w.
Proof.
  intros Hblank. eexists. split.
  - unfold form_submitted. rewrite (strip_spaces _ Hblank). reflexivity.
  - done.
Qed.

Lemma blank_justification_blocks_witness :
  Forall (λ c, isspace c = true) (list_ascii_of_string "   ") ∧
  ∃ w',
    form_submitted (numbered_speech "0") 0 3 "r1" 4 "   " true (world_with Missing)
    = (Return tt, w') ∧
    screen w' = screen (world_with Missing)
                ++ [StError "❌ Please provide a justification for your score"] ∧
    annotations_file w' = annotations_file (world_with Missing) ∧
    session_state w' = session_state (world_with Missing) ∧
    speeches_file w' = speeches_file (world_with Missing).
Proof.
  assert (Forall (λ c, isspace c = true) (list_ascii_of_string "   ")) as Hblank.
  { repeat constructor. }
  split; [exact Hblank|].
  apply (blank_justification_blocks (world_with Missing) (numbered_speech "0") 0 3 "r1" 4 "   ").
  exact Hblank.
Defined.

(** With a justification that is not blank the same branch writes the
    stripped text, moves the cursor and asks for a rerun. *)
Example form_submitted_saves :
  form_submitted (mkSpeech "s1" "t" "p" "stmt" ["x"; "y"]) 0 3 "r1" 4 " ok " true
    (world_with Missing)
  = (Rerun,
     mkWorld (Table [mkRow "s1" "r1" 4 "ok" "x | y" "stmt"]) JsonMissing
       (mkSession false 1 "r1") [StSuccess "✅ Annotation saved!"]).
Proof. vm_compute. reflexivity. Qed.

(** ** Writing the file *)

Section Write.
Variables (item rater : string) (sc : Z) (just ctx stmt : string).

Let new_row := mkRow item rater sc just ctx stmt.
Let other := λ r : Row, row_key r ≠ (item, rater).

Lemma filter_other_upserted (df : DataFrame) :
  filter other (upserted item rater sc just ctx stmt df) = filter other df.
Proof.
  unfold upserted. destruct (existsb (has_key item rater) df).
  - apply filter_other_overwritten; unfold other; [tauto|]. by intros [].
  - rewrite filter_app, filter_cons, decide_False by (by intros []).
    by rewrite filter_nil, (right_id_L [] (++)).
Qed.

Lemma mine_upserted (df : DataFrame) (r : Row) :
  r ∈ upserted item rater sc just ctx stmt df → row_key r = (item, rater) → r = new_row.
Proof.
  intros Hin Hk.
  assert (r ∈ filter (λ r, row_key r = (item, rater)) (upserted item rater sc just ctx stmt df))
    as Hel by (by apply list_elem_of_filter).
  rewrite filter_mine_upserted in Hel. by apply elem_of_replicate in Hel as [-> _].
Qed.

Lemma row_in_upserted (df : DataFrame) :
  new_row ∈ upserted item rater sc just ctx stmt df.
Proof.
  assert (new_row ∈ filter (λ r, row_key r = (item, rater))
                       (upserted item rater sc just ctx stmt df)) as Hel.
  { rewrite filter_mine_upserted. destruct (max 1 _) eqn:E; [lia|]. apply list_elem_of_here. }
  by apply list_elem_of_filter in Hel as [_ ?].
Qed.

Lemma update_annotation_cut_short (w : World) :
  usable (annotations_file w) →
  update_annotation_with to_csv_cut_short item rater sc just ctx stmt w
  = (Killed, with_annotations_file (Unreadable "No columns to parse from file") w).
Proof.
  intros Hu. destruct (annotations_file w) as [|why|df] eqn:Hf; [|done|].
  - by rewrite update_annotation_with_Missing.
  - by rewrite (update_annotation_with_Table _ _ _ _ _ _ _ _ df).
Qed.
End Write.

(** C8, as amended: on a store that is absent or a table of plain rows,
    every call of [update_annotation] with plain arguments that runs to its
    end leaves the file a table of plain rows, in which the rows of all
    other pairs stand unchanged and in order, the pair written has a row,
    and every row of that pair is this call's row; the frame is written
    straight into the store file, so a run that is killed after the file
    was opened and before the frame is in it leaves the file empty. *)
Theorem write_in_place (w : World) (item rater : string) (sc : Z) (just ctx stmt : string) :
  usable (annotations_file w) →
  plain_file (annotations_file w) →
  plain_row (mkRow item rater sc just ctx stmt) = true →
  ∃ df',
    update_annotation item rater sc just ctx stmt w
    = (Return tt, with_annotations_file (Table df') w) ∧
    forallb plain_row df' = true ∧
    filter (λ r, row_key r ≠ (item, rater)) df'
    = filter (λ r, row_key r ≠ (item, rater)) (rows_of (annotations_file w)) ∧
    mkRow item rater sc just ctx stmt ∈ df' ∧
    (∀ r, r ∈ df' → row_key r = (item, rater) → r = mkRow item rater sc just ctx stmt) ∧
    update_annotation_with to_csv_cut_short item rater sc just ctx stmt w
    = (Killed, with_annotations_file (Unreadable "No columns to parse from file") w).
Proof.
  intros Hu Hplain Hnew.
  exists (upserted item rater sc just ctx stmt (rows_of (annotations_file w))).
  split; [by apply update_annotation_run|].
  split; [by apply plain_file_upserted|].
  split; [apply filter_other_upserted|].
  split; [apply row_in_upserted|].
  split; [apply mine_upserted|].
  by apply update_annotation_cut_short.
Qed.

Lemma write_in_place_witness :
  usable (annotations_file (world_with (Table [mkRow "s1" "r1" 4 "a" "c" "s"]))) ∧
  plain_file (annotations_file (world_with (Table [mkRow "s1" "r1" 4 "a" "c" "s"]))) ∧
  plain_row (mkRow "s2" "r1" 3 "b" "c" "s") = true ∧
  ∃ df',
    update_annotation "s2" "r1" 3 "b" "c" "s" (world_with (Table [mkRow "s1" "r1" 4 "a" "c" "s"]))
    = (Return tt,
       with_annotations_file (Table df') (world_with (Table [mkRow "s1" "r1" 4 "a" "c" "s"]))) ∧
    forallb plain_row df' = true ∧
    filter (λ r, row_key r ≠ ("s2", "r1")) df'
    = filter (λ r, row_key r ≠ ("s2", "r1"))
        (rows_of (annotations_file (world_with (Table [mkRow "s1" "r1" 4 "a" "c" "s"])))) ∧
    mkRow "s2" "r1" 3 "b" "c" "s" ∈ df' ∧
    (∀ r, r ∈ df' → row_key r = ("s2", "r1") → r = mkRow "s2" "r1" 3 "b" "c" "s") ∧
    update_annotation_with to_csv_cut_short "s2" "r1" 3 "b" "c" "s"
      (world_with (Table [mkRow "s1" "r1" 4 "a" "c" "s"]))
    = (Killed,
       with_annotations_file (Unreadable "No columns to parse from file")
         (world_with (Table [mkRow "s1" "r1" 4 "a" "c" "s"]))).
Proof.
  split; [exact I|]. split; [reflexivity|]. split; [reflexivity|].
  apply (write_in_place (world_with (Table [mkRow "s1" "r1" 4 "a" "c" "s"]))
           "s2" "r1" 3 "b" "c" "s"); [exact I|reflexivity|reflexivity].
Defined.

(** C8 as stated fails: a submission for (s2, r1) on a table that holds the
    row of (s1, r1), killed while the file is being written, leaves a file
    that is no table and from which the row of (s1, r1) is gone. *)
Lemma write_atomicity_counterexample :
  ∃ w',
    update_annotation_with to_csv_cut_short "s2" "r1" 3 "b" "c" "s"
      (world_with (Table [mkRow "s1" "r1" 4 "a" "c" "s"])) = (Killed, w') ∧
    annotations_file w' = Unreadable "No columns to parse from file" ∧
    rows_of (annotations_file w') = [] ∧
    get_annotation "s1" "r1" w'
    = (Return None,
       with_screen [StError "Error reading annotations: No columns to parse from file"] w').
Proof.
  eexists. split; [vm_compute; reflexivity|]. split; [reflexivity|].
  split; [reflexivity|]. vm_compute. reflexivity.
Qed.

(** * Further properties of the store *)

(** ** A store file that cannot be read *)

(** X1: on a store file that [pd.read_csv] refuses, [get_annotation] returns
    [None] and [get_annotations_for_rater] the empty dict; each shows one
    error line carrying the reason and leaves file and session alone. *)
Theorem reads_report_unreadable_store (w : World) (why item rater : string) :
  annotations_file w = Unreadable why →
  get_annotation item rater w
  = (Return None, with_screen (screen w ++ [StError ("Error reading annotations: " ++ why)]) w) ∧
  get_annotations_for_rater rater w
  = (Return ∅, with_screen (screen w ++ [StError ("Error reading annotations: " ++ why)]) w).
Proof.
  intros Hf. split.
  - by apply get_annotation_Unreadable.
  - by apply get_annotations_for_rater_Unreadable.
Qed.

Lemma reads_report_unreadable_store_witness :
  annotations_file (world_with (Unreadable "bad quoting")) = Unreadable "bad quoting" ∧
  get_annotation "s1" "r1" (world_with (Unreadable "bad quoting"))
  = (Return None,
     with_screen [StError "Error reading annotations: bad quoting"]
       (world_with (Unreadable "bad quoting"))) ∧
  get_annotations_for_rater "r1" (world_with (Unreadable "bad quoting"))
  = (Return ∅,
     with_screen [StError "Error reading annotations: bad quoting"]
       (world_with (Unreadable "bad quoting"))).
Proof.
  split; [reflexivity|].
  apply (reads_report_unreadable_store (world_with (Unreadable "bad quoting"))
           "bad quoting" "s1" "r1").
  reflexivity.
Defined.

(** X2: [update_annotation] has no [try] around its read: on a store file
    that cannot be read it raises the read error and writes nothing. *)
Theorem update_raises_on_unreadable_store (w : World) (why item rater : string)
    (sc : Z) (just ctx stmt : string) :
  annotations_file w = Unreadable why →
  update_annotation item rater sc just ctx stmt w = (Raise (CsvReadError why), w).
Proof. intros Hf. unfold update_annotation. by apply update_annotation_with_Unreadable. Qed.

Lemma update_raises_on_unreadable_store_witness :
  annotations_file (world_with (Unreadable "bad quoting")) = Unreadable "bad quoting" ∧
  update_annotation "s1" "r1" 4 "a" "c" "s" (world_with (Unreadable "bad quoting"))
  = (Raise (CsvReadError "bad quoting"), world_with (Unreadable "bad quoting")).
Proof.
  split; [reflexivity|].
  apply (update_raises_on_unreadable_store (world_with (Unreadable "bad quoting"))
           "bad quoting" "s1" "r1" 4 "a" "c" "s").
  reflexivity.
Defined.

(** X3: whatever the store file, the two read functions return a value,
    never raise, stop or rerun, and change neither the store file, nor the
    speeches file, nor the session. *)
Theorem reads_never_write (w : World) (item rater : string) :
  (∃ result w',
     get_annotation item rater w = (Return result, w') ∧
     annotations_file w' = annotations_file w ∧
     speeches_file w' = speeches_file w ∧
     session_state w' = session_state w) ∧
  (∃ result w',
     get_annotations_for_rater rater w = (Return result, w') ∧
     annotations_file w' = annotations_file w ∧
     speeches_file w' = speeches_file w ∧
     session_state w' = session_state w).
Proof.
  destruct (annotations_file w) as [|why|df] eqn:Hf; split; eexists _, _.
  - split; [by apply get_annotation_Missing|done].
  - split; [by apply get_annotations_for_rater_Missing|done].
  - split; [by apply (get_annotation_Unreadable _ _ _ why)|done].
  - split; [by apply (get_annotations_for_rater_Unreadable _ _ why)|done].
  - split; [by apply (get_annotation_Table _ _ _ df)|done].
  - split; [by apply (get_annotations_for_rater_Table _ _ df)|done].
Qed.

(** ** Rows of other pairs *)

Section OtherKeys.
Variables (item rater : string) (sc : Z) (just ctx stmt : string).
Implicit Types (df : DataFrame) (r : Row).

Lemma filter_key_upserted_other (item' rater' : string) df :
  (item', rater') ≠ (item, rater) →
  filter (λ r, row_key r = (item', rater')) (upserted item rater sc just ctx stmt df)
  = filter (λ r, row_key r = (item', rater')) df.
Proof.
  intros Hne. unfold upserted. destruct (existsb (has_key item rater) df).
  - apply filter_other_overwritten.
    + intros r Hr Hr'. congruence.
    + unfold row_key. simpl. congruence.
  - rewrite filter_app, filter_cons, decide_False.
    + by rewrite filter_nil, (right_id_L [] (++)).
    + unfold row_key. simpl. congruence.
Qed.

Lemma upserted_new_key df :
  Forall (λ r, row_key r ≠ (item, rater)) df →
  upserted item rater sc just ctx stmt df = df ++ [mkRow item rater sc just ctx stmt].
Proof.
  intros Hno. unfold upserted.
  by rewrite (proj2 (existsb_has_key_false item rater df) Hno).
Qed.

Lemma length_upserted_present df :
  existsb (has_key item rater) df = true →
  length (upserted item rater sc just ctx stmt df) = length df.
Proof. intros E. unfold upserted. rewrite E. apply length_map. Qed.
End OtherKeys.

(** X4: on a store that is absent or a table of plain rows, a call of
    [update_annotation] with plain arguments for one pair does not change
    what [get_annotation] returns for any other pair. *)
Theorem update_keeps_other_pairs (w : World) (item rater item' rater' : string)
    (sc : Z) (just ctx stmt : string) :
  usable (annotations_file w) →
  (item', rater') ≠ (item, rater) →
  plain_file (annotations_file w) →
  plain_row (mkRow item rater sc just ctx stmt) = true →
  ∃ w1,
    update_annotation item rater sc just ctx stmt w = (Return tt, w1) ∧
    (get_annotation item' rater' w1).1 = (get_annotation item' rater' w).1.
Proof.
  intros Hu Hne _ _. eexists. split; [by apply update_annotation_run|].
  erewrite (get_annotation_Table item' rater' (with_annotations_file _ w)) by reflexivity.
  rewrite filter_key_upserted_other by done.
  destruct (annotations_file w) as [|why|df] eqn:Hf; [|done|].
  - by rewrite (get_annotation_Missing _ _ _ Hf).
  - by rewrite (get_annotation_Table _ _ _ df Hf).
Qed.

Lemma update_keeps_other_pairs_witness :
  usable (annotations_file (world_with (Table [mkRow "s1" "r1" 4 "a" "c" "s"]))) ∧
  ("s1", "r1") ≠ ("s2", "r1") ∧
  plain_file (annotations_file (world_with (Table [mkRow "s1" "r1" 4 "a" "c" "s"]))) ∧
  plain_row (mkRow "s2" "r1" 2 "b" "c" "s") = true ∧
  ∃ w1,
    update_annotation "s2" "r1" 2 "b" "c" "s" (world_with (Table [mkRow "s1" "r1" 4 "a" "c" "s"]))
    = (Return tt, w1) ∧
    (get_annotation "s1" "r1" w1).1
    = (get_annotation "s1" "r1" (world_with (Table [mkRow "s1" "r1" 4 "a" "c" "s"]))).1.
Proof.
  split; [exact I|]. split; [discriminate|]. split; [reflexivity|]. split; [reflexivity|].
  apply (update_keeps_other_pairs (world_with (Table [mkRow "s1" "r1" 4 "a" "c" "s"]))
           "s2" "r1" "s1" "r1" 2 "b" "c" "s"); [exact I|discriminate|reflexivity|reflexivity].
Defined.

(** X5: when the table is made of plain rows and holds no row of the pair,
    [update_annotation] with plain arguments puts the new row after all
    rows of the table and leaves these as they are. *)
Theorem new_pair_is_appended (w : World) (df : DataFrame) (item rater : string)
    (sc : Z) (just ctx stmt : string) :
  annotations_file w = Table df →
  Forall (λ r, row_key r ≠ (item, rater)) df →
  forallb plain_row df = true →
  plain_row (mkRow item rater sc just ctx stmt) = true →
  update_annotation item rater sc just ctx stmt w
  = (Return tt, with_annotations_file (Table (df ++ [mkRow item rater sc just ctx stmt])) w).
Proof.
  intros Hf Hno _ _. rewrite update_annotation_run by (by rewrite Hf).
  rewrite Hf. cbn [rows_of]. by rewrite upserted_new_key.
Qed.

Lemma new_pair_is_appended_witness :
  annotations_file (world_with (Table [mkRow "s1" "r1" 4 "a" "c" "s"]))
  = Table [mkRow "s1" "r1" 4 "a" "c" "s"] ∧
  Forall (λ r, row_key r ≠ ("s2", "r1")) [mkRow "s1" "r1" 4 "a" "c" "s"] ∧
  forallb plain_row [mkRow "s1" "r1" 4 "a" "c" "s"] = true ∧
  plain_row (mkRow "s2" "r1" 2 "b" "c" "s") = true ∧
  update_annotation "s2" "r1" 2 "b" "c" "s" (world_with (Table [mkRow "s1" "r1" 4 "a" "c" "s"]))
  = (Return tt,
     with_annotations_file
       (Table ([mkRow "s1" "r1" 4 "a" "c" "s"] ++ [mkRow "s2" "r1" 2 "b" "c" "s"]))
       (world_with (Table [mkRow "s1" "r1" 4 "a" "c" "s"]))).
Proof.
  assert (Forall (λ r, row_key r ≠ ("s2", "r1")) [mkRow "s1" "r1" 4 "a" "c" "s"]) as Hno.
  { repeat constructor. discriminate. }
  split; [reflexivity|]. split; [exact Hno|]. split; [reflexivity|]. split; [reflexivity|].
  apply (new_pair_is_appended (world_with (Table [mkRow "s1" "r1" 4 "a" "c" "s"]))
           [mkRow "s1" "r1" 4 "a" "c" "s"] "s2" "r1" 2 "b" "c" "s" eq_refl Hno);
    reflexivity.
Defined.

(** X6: when the table is made of plain rows and already holds the pair,
    [update_annotation] with plain arguments keeps the number of rows, and
    the row at every position keeps its item and rater identifiers. *)
Theorem known_pair_keeps_table_shape (w : World) (df : DataFrame) (item rater : string)
    (sc : Z) (just ctx stmt : string) :
  annotations_file w = Table df →
  (∃ r, r ∈ df ∧ row_key r = (item, rater)) →
  forallb plain_row df = true →
  plain_row (mkRow item rater sc just ctx stmt) = true →
  ∃ df',
    update_annotation item rater sc just ctx stmt w
    = (Return tt, with_annotations_file (Table df') w) ∧
    length df' = length df ∧
    map row_key df' = map row_key df.
Proof.
  intros Hf (r & Hin & Hr) _ _.
  assert (existsb (has_key item rater) df = true) as E.
  { apply existsb_exists. exists r. split; [by apply list_elem_of_In|by apply has_key_true]. }
  eexists. split; [apply update_annotation_run; by rewrite Hf|].
  rewrite Hf. cbn [rows_of]. split.
  - by apply length_upserted_present.
  - by rewrite keys_upserted, E.
Qed.

Lemma known_pair_keeps_table_shape_witness :
  annotations_file (world_with duplicated_table) = duplicated_table ∧
  (∃ r, r ∈ [mkRow "s1" "r1" 4 "first" "c" "s"; mkRow "s1" "r1" 1 "second" "c" "s"]
        ∧ row_key r = ("s1", "r1")) ∧
  forallb plain_row
    [mkRow "s1" "r1" 4 "first" "c" "s"; mkRow "s1" "r1" 1 "second" "c" "s"] = true ∧
  plain_row (mkRow "s1" "r1" 3 "x" "c" "s") = true ∧
  ∃ df',
    update_annotation "s1" "r1" 3 "x" "c" "s" (world_with duplicated_table)
    = (Return tt, with_annotations_file (Table df') (world_with duplicated_table)) ∧
    length df' = length [mkRow "s1" "r1" 4 "first" "c" "s"; mkRow "s1" "r1" 1 "second" "c" "s"] ∧
    map row_key df'
    = map row_key [mkRow "s1" "r1" 4 "first" "c" "s"; mkRow "s1" "r1" 1 "second" "c" "s"].
Proof.
  assert (∃ r, r ∈ [mkRow "s1" "r1" 4 "first" "c" "s"; mkRow "s1" "r1" 1 "second" "c" "s"]
               ∧ row_key r = ("s1", "r1")) as Hex.
  { eexists. split; [apply list_elem_of_here|reflexivity]. }
  split; [reflexivity|]. split; [exact Hex|]. split; [reflexivity|]. split; [reflexivity|].
  apply (known_pair_keeps_table_shape (world_with duplicated_table) _ "s1" "r1" 3 "x" "c" "s"
           eq_refl Hex); reflexivity.
Defined.

(** ** Bulk lookup against point lookup *)

Section BulkLookup.
Implicit Types (df : DataFrame) (r : Row).

Lemma collect_snoc df r :
  collect (df ++ [r]) = <[item_id r := annotation_of r]> (collect df).
Proof. unfold collect. by rewrite foldl_app. Qed.

(** Each entry of the dict comes from the last row with that item. *)
Lemma collect_lookup df (item : string) :
  collect df !! item = annotation_of <$> last (filter (λ r, item_id r = item) df).
Proof.
  induction df as [|r df IH] using rev_ind; [done|].
  rewrite collect_snoc, filter_app, filter_cons, filter_nil.
  destruct (decide (item_id r = item)) as [<-|Hne].
  - by rewrite lookup_insert_eq, last_snoc.
  - rewrite lookup_insert_ne by done. by rewrite (right_id_L [] (++)).
Qed.

Lemma filter_item_of_rater df (item rater : string) :
  filter (λ r, item_id r = item) (filter (λ r, rater_id r = rater) df)
  = filter (λ r, row_key r = (item, rater)) df.
Proof.
  rewrite list_filter_filter. apply list_filter_iff.
  intros r. unfold row_key. split.
  - by intros [-> ->].
  - intros [= -> ->]. done.
Qed.

Lemma filter_key_at_most_one df (k : string * string) :
  NoDup (map row_key df) → (length (filter (λ r, row_key r = k) df) ≤ 1)%nat.
Proof.
  destruct k as [i ra].
  induction df as [|r df IH]; intros Hnd; [simpl; lia|].
  cbn [map] in Hnd. apply NoDup_cons in Hnd as [Hnotin Hnd].
  rewrite filter_cons. destruct (decide (row_key r = (i, ra))) as [Hk|Hk]; [|by apply IH].
  assert (filter (λ r, row_key r = (i, ra)) df = []) as ->; [|simpl; lia].
  apply (filter_mine_none i ra).
  apply Forall_forall. intros r' Hin Hk'. apply Hnotin.
  rewrite Hk, <- Hk'.
  apply list_elem_of_In, in_map, list_elem_of_In. done.
Qed.
End BulkLookup.

(** X7: on a table of plain rows, the dict of [get_annotations_for_rater]
    maps an item to the score and justification of the last row of (item,
    rater) in file order, and has no entry for an item without such a
    row. *)
Theorem bulk_lookup_last_row (w : World) (df : DataFrame) (rater : string) :
  annotations_file w = Table df →
  forallb plain_row df = true →
  ∃ annotations,
    get_annotations_for_rater rater w = (Return annotations, w) ∧
    ∀ item,
      annotations !! item
      = annotation_of <$> last (filter (λ r, row_key r = (item, rater)) df).
Proof.
  intros Hf _. eexists. split; [by apply (get_annotations_for_rater_Table _ _ df)|].
  intros item. by rewrite collect_lookup, filter_item_of_rater.
Qed.

Lemma bulk_lookup_last_row_witness :
  annotations_file (world_with duplicated_table) = duplicated_table ∧
  forallb plain_row [mkRow "s1" "r1" 4 "first" "c" "s"; mkRow "s1" "r1" 1 "second" "c" "s"] = true ∧
  ∃ annotations,
    get_annotations_for_rater "r1" (world_with duplicated_table)
    = (Return annotations, world_with duplicated_table) ∧
    ∀ item,
      annotations !! item
      = annotation_of <$> last (filter (λ r, row_key r = (item, "r1"))
          [mkRow "s1" "r1" 4 "first" "c" "s"; mkRow "s1" "r1" 1 "second" "c" "s"]).
Proof.
  split; [reflexivity|]. split; [reflexivity|].
  apply (bulk_lookup_last_row (world_with duplicated_table) _ "r1" eq_refl). reflexivity.
Defined.

(** X8: on a table of plain rows in which no (item, rater) pair has two
    rows, the two lookups agree: the dict of the rater holds for every item
    exactly what [get_annotation] returns for it. *)
Theorem lookups_agree_without_duplicates (w : World) (df : DataFrame) (rater : string) :
  annotations_file w = Table df →
  NoDup (map row_key df) →
  forallb plain_row df = true →
  ∃ annotations,
    get_annotations_for_rater rater w = (Return annotations, w) ∧
    ∀ item, get_annotation item rater w = (Return (annotations !! item), w).
Proof.
  intros Hf Hnd _. eexists. split; [by apply (get_annotations_for_rater_Table _ _ df)|].
  intros item. rewrite (get_annotation_Table _ _ _ df Hf).
  rewrite collect_lookup, filter_item_of_rater.
  pose proof (filter_key_at_most_one df (item, rater) Hnd) as Hone.
  destruct (filter (λ r, row_key r = (item, rater)) df) as [|r [|r' l]]; [done|done|].
  simpl in Hone. lia.
Qed.

Lemma lookups_agree_without_duplicates_witness :
  annotations_file (world_with (Table [mkRow "s1" "r1" 4 "a" "c" "s"; mkRow "s2" "r1" 2 "b" "c" "s"]))
  = Table [mkRow "s1" "r1" 4 "a" "c" "s"; mkRow "s2" "r1" 2 "b" "c" "s"] ∧
  NoDup (map row_key [mkRow "s1" "r1" 4 "a" "c" "s"; mkRow "s2" "r1" 2 "b" "c" "s"]) ∧
  forallb plain_row [mkRow "s1" "r1" 4 "a" "c" "s"; mkRow "s2" "r1" 2 "b" "c" "s"] = true ∧
  ∃ annotations,
    get_annotations_for_rater "r1"
      (world_with (Table [mkRow "s1" "r1" 4 "a" "c" "s"; mkRow "s2" "r1" 2 "b" "c" "s"]))
    = (Return annotations,
       world_with (Table [mkRow "s1" "r1" 4 "a" "c" "s"; mkRow "s2" "r1" 2 "b" "c" "s"])) ∧
    ∀ item,
      get_annotation item "r1"
        (world_with (Table [mkRow "s1" "r1" 4 "a" "c" "s"; mkRow "s2" "r1" 2 "b" "c" "s"]))
      = (Return (annotations !! item),
         world_with (Table [mkRow "s1" "r1" 4 "a" "c" "s"; mkRow "s2" "r1" 2 "b" "c" "s"])).
Proof.
  assert (NoDup (map row_key [mkRow "s1" "r1" 4 "a" "c" "s"; mkRow "s2" "r1" 2 "b" "c" "s"]))
    as Hnd.
  { cbn [map]. apply NoDup_cons. split; [|apply NoDup_singleton].
    intros Hel. apply list_elem_of_singleton in Hel. discriminate Hel. }
  split; [reflexivity|]. split; [exact Hnd|]. split; [reflexivity|].
  apply (lookups_agree_without_duplicates
           (world_with (Table [mkRow "s1" "r1" 4 "a" "c" "s"; mkRow "s2" "r1" 2 "b" "c" "s"]))
           _ "r1" eq_refl Hnd).
  reflexivity.
Defined.

(** X9: on a table made of two plain rows of the same pair the two lookups
    disagree when the rows differ: [get_annotation] answers with the first
    row, the dict of [get_annotations_for_rater] with the second. *)
Theorem lookups_disagree_on_duplicates (w : World) (r1 r2 : Row) :
  annotations_file w = Table [r1; r2] →
  row_key r2 = row_key r1 →
  plain_row r1 = true →
  plain_row r2 = true →
  ∃ annotations,
    get_annotations_for_rater (rater_id r1) w = (Return annotations, w) ∧
    annotations !! item_id r1 = Some (annotation_of r2) ∧
    get_annotation (item_id r1) (rater_id r1) w = (Return (Some (annotation_of r1)), w).
Proof.
  intros Hf Hk _ _.
  assert (filter (λ r, row_key r = (item_id r1, rater_id r1)) [r1; r2] = [r1; r2]) as Hfil.
  { rewrite !filter_cons, filter_nil. fold (row_key r1).
    by rewrite decide_True, decide_True by done. }
  eexists. split; [by apply (get_annotations_for_rater_Table _ _ [r1; r2])|]. split.
  - by rewrite collect_lookup, filter_item_of_rater, Hfil.
  - rewrite (get_annotation_Table _ _ _ [r1; r2] Hf). by rewrite Hfil.
Qed.

Lemma lookups_disagree_on_duplicates_witness :
  annotations_file (world_with duplicated_table)
  = Table [mkRow "s1" "r1" 4 "first" "c" "s"; mkRow "s1" "r1" 1 "second" "c" "s"] ∧
  row_key (mkRow "s1" "r1" 1 "second" "c" "s") = row_key (mkRow "s1" "r1" 4 "first" "c" "s") ∧
  plain_row (mkRow "s1" "r1" 4 "first" "c" "s") = true ∧
  plain_row (mkRow "s1" "r1" 1 "second" "c" "s") = true ∧
  ∃ annotations,
    get_annotations_for_rater "r1" (world_with duplicated_table)
    = (Return annotations, world_with duplicated_table) ∧
    annotations !! "s1" = Some (mkAnnotation 1 "second") ∧
    get_annotation "s1" "r1" (world_with duplicated_table)
    = (Return (Some (mkAnnotation 4 "first")), world_with duplicated_table).
Proof.
  split; [reflexivity|]. split; [reflexivity|]. split; [reflexivity|]. split; [reflexivity|].
  apply (lookups_disagree_on_duplicates (world_with duplicated_table)
           (mkRow "s1" "r1" 4 "first" "c" "s") (mkRow "s1" "r1" 1 "second" "c" "s")
           eq_refl eq_refl); reflexivity.
Defined.

(** X10: after [update_annotation] has written a pair with plain arguments
    on a store that is absent or a table of plain rows, the dict of
    [get_annotations_for_rater] for that rater maps the item to the score
    and justification written, whatever the table held before. *)
Theorem update_shows_in_bulk_lookup (w : World) (item rater : string)
    (sc : Z) (just ctx stmt : string) :
  usable (annotations_file w) →
  plain_file (annotations_file w) →
  plain_row (mkRow item rater sc just ctx stmt) = true →
  ∃ w1 annotations,
    update_annotation item rater sc just ctx stmt w = (Return tt, w1) ∧
    get_annotations_for_rater rater w1 = (Return annotations, w1) ∧
    annotations !! item = Some (mkAnnotation sc just).
Proof.
  intros Hu _ _. eexists _, _. split; [by apply update_annotation_run|].
  split; [by apply (get_annotations_for_rater_Table rater (with_annotations_file _ w) _ eq_refl)|].
  rewrite collect_lookup, filter_item_of_rater, filter_mine_upserted.
  destruct (max 1 _) as [|n] eqn:E; [lia|].
  clear E. induction n as [|n IH]; [done|].
  cbn [replicate] in *. by rewrite last_cons_cons.
Qed.

Lemma update_shows_in_bulk_lookup_witness :
  usable (annotations_file (world_with duplicated_table)) ∧
  plain_file (annotations_file (world_with duplicated_table)) ∧
  plain_row (mkRow "s1" "r1" 3 "x" "c" "s") = true ∧
  ∃ w1 annotations,
    update_annotation "s1" "r1" 3 "x" "c" "s" (world_with duplicated_table) = (Return tt, w1) ∧
    get_annotations_for_rater "r1" w1 = (Return annotations, w1) ∧
    annotations !! "s1" = Some (mkAnnotation 3 "x").
Proof.
  split; [exact I|]. split; [reflexivity|]. split; [reflexivity|].
  apply (update_shows_in_bulk_lookup (world_with duplicated_table) "s1" "r1" 3 "x" "c" "s");
    [exact I|reflexivity|reflexivity].
Defined.

(** * Further properties of the speech source *)





(** X13: a JSON document without a ['speeches'] entry is covered by neither
    [except] clause: [load_speeches] lets the [KeyError] through and shows
    nothing. *)
Theorem load_speeches_raises_without_entry (w : World) :
  speeches_file w = JsonDoc None →
  load_speeches w = (Raise (KeyError "'speeches'"), w).
Proof.
  intros Hf. unfold load_speeches, load_speeches_with, try_except, bind, json_load.
  by rewrite Hf.
Qed.

Lemma load_speeches_raises_without_entry_witness :
  speeches_file (mkWorld Missing (JsonDoc None) fresh_session []) = JsonDoc None ∧
  load_speeches (mkWorld Missing (JsonDoc None) fresh_session [])
  = (Raise (KeyError "'speeches'"), mkWorld Missing (JsonDoc None) fresh_session []).
Proof.
  split; [reflexivity|].
  apply (load_speeches_raises_without_entry (mkWorld Missing (JsonDoc None) fresh_session [])).
  reflexivity.
Defined.

(** X14: with the module's constants, [load_speeches] never returns more
    than three speeches: what it returns is the start of the file's list,
    of length the smaller of 3 and the list's length, so a file with three
    speeches or fewer is returned whole. *)
Theorem load_speeches_at_most_three (w : World) (speeches : list Speech) :
  speeches_file w = JsonDoc (Some speeches) →
  ∃ loaded rest,
    load_speeches w = (Return loaded, w) ∧
    speeches = loaded ++ rest ∧
    length loaded = (length speeches `min` 3)%nat ∧
    ((length speeches ≤ 3)%nat → loaded = speeches).
Proof.
  intros Hf. exists (take 3 speeches), (drop 3 speeches).
  split.
  - unfold load_speeches. rewrite (load_speeches_with_run _ _ _ speeches Hf).
    change TEST_SPEECHES_COUNT with (Z.of_nat 3). by rewrite slice_to_nat.
  - split; [by rewrite take_drop|]. split.
    + rewrite length_take. lia.
    + intros Hle. by apply take_ge.
Qed.

Lemma load_speeches_at_most_three_witness :
  speeches_file (mkWorld Missing (JsonDoc (Some (map numbered_speech ["0"; "1"]))) fresh_session [])
  = JsonDoc (Some (map numbered_speech ["0"; "1"])) ∧
  ∃ loaded rest,
    load_speeches (mkWorld Missing (JsonDoc (Some (map numbered_speech ["0"; "1"]))) fresh_session [])
    = (Return loaded,
       mkWorld Missing (JsonDoc (Some (map numbered_speech ["0"; "1"]))) fresh_session []) ∧
    map numbered_speech ["0"; "1"] = loaded ++ rest ∧
    length loaded = (length (map numbered_speech ["0"; "1"]) `min` 3)%nat ∧
    ((length (map numbered_speech ["0"; "1"]) ≤ 3)%nat → loaded = map numbered_speech ["0"; "1"]).
Proof.
  split; [reflexivity|].
  apply (load_speeches_at_most_three
           (mkWorld Missing (JsonDoc (Some (map numbered_speech ["0"; "1"]))) fresh_session [])).
  reflexivity.
Defined.

(** * Properties of the cursor *)

Section Cursor.
Implicit Types (w : World) (speeches : list Speech).

Lemma py_index_in_range {A} (l : list A) (i : Z) (w : World) :
  (0 ≤ i < len l)%Z →
  ∃ x, l !! Z.to_nat i = Some x ∧ py_index l i w = (Return x, w).
Proof.
  intros Hi. unfold len in Hi.
  destruct (lookup_lt_is_Some_2 l (Z.to_nat i)) as [x Hx]; [lia|].
  exists x. split; [done|]. unfold py_index.
  rewrite (proj2 (Z.ltb_ge i 0)) by lia.
  rewrite (proj2 (Z.leb_le 0 i)) by lia.
  unfold len. rewrite (proj2 (Z.ltb_lt i _)) by lia.
  cbn [andb]. by rewrite Hx.
Qed.

Lemma set_current_idx_same w :
  with_session_state
    (mkSession (show_intro (session_state w)) (current_idx (session_state w))
       (session_rater_id (session_state w))) w = w.
Proof. by destruct w as [f j [a i r] m]. Qed.
End Cursor.

(** X15: with at least one speech, the block of [main] that picks the
    current speech brings the cursor to the nearest index of the list (0
    when it was below, the last index when it was beyond), stores it in the
    session, and returns the speech at that index; nothing else in the
    world changes, and a cursor already inside the list changes nothing. *)
Theorem select_current_speech_clamps (w : World) (speeches : list Speech) :
  speeches ≠ [] →
  ∃ i s w',
    select_current_speech speeches (len speeches) w = (Return (i, s), w') ∧
    i = (0 `max` (current_idx (session_state w) `min` (len speeches - 1)))%Z ∧
    speeches !! Z.to_nat i = Some s ∧
    w' = with_session_state
           (mkSession (show_intro (session_state w)) i (session_rater_id (session_state w))) w ∧
    (cursor_in_range (len speeches) w → w' = w).
Proof.
  intros Hne.
  assert (0 < len speeches)%Z as Hlen.
  { unfold len. destruct speeches; [done|]. simpl. lia. }
  set (c := current_idx (session_state w)).
  set (i := (0 `max` (c `min` (len speeches - 1)))%Z).
  destruct (py_index_in_range speeches i
              (with_session_state
                 (mkSession (show_intro (session_state w)) i (session_rater_id (session_state w))) w))
    as (s & Hs & Hidx); [lia|].
  exists i, s, (with_session_state
                  (mkSession (show_intro (session_state w)) i (session_rater_id (session_state w))) w).
  split; [|split; [done|split; [done|split; [done|]]]].
  - unfold select_current_speech, bind, read_current_idx. fold c.
    destruct (c <? 0)%Z eqn:Elow.
    + apply Z.ltb_lt in Elow. replace i with 0%Z in * by lia.
      unfold set_current_idx, ret. cbn. change (py_index speeches 0 _) with
        (py_index speeches 0 (with_session_state
           (mkSession (show_intro (session_state w)) 0 (session_rater_id (session_state w))) w)).
      by rewrite Hidx.
    + apply Z.ltb_ge in Elow. destruct (c >=? len speeches)%Z eqn:Ehigh.
      * rewrite Z.geb_leb in Ehigh. apply Z.leb_le in Ehigh.
        replace i with (len speeches - 1)%Z in * by lia.
        unfold set_current_idx, ret. cbn.
        change (py_index speeches (len speeches - 1) _) with
          (py_index speeches (len speeches - 1) (with_session_state
             (mkSession (show_intro (session_state w)) (len speeches - 1)
                (session_rater_id (session_state w))) w)).
        by rewrite Hidx.
      * rewrite Z.geb_leb in Ehigh. apply Z.leb_gt in Ehigh.
        replace i with c in * by lia. unfold ret. cbn.
        unfold c in Hidx. rewrite set_current_idx_same in Hidx. fold c in Hidx.
        rewrite Hidx. unfold c. by rewrite set_current_idx_same.
  - intros [Hlo Hhi]. fold c in Hlo, Hhi. replace i with c by lia.
    unfold c. apply set_current_idx_same.
Qed.

Lemma select_current_speech_clamps_witness :
  ten_speeches ≠ [] ∧
  ∃ i s w',
    select_current_speech ten_speeches (len ten_speeches)
      (mkWorld Missing JsonMissing (mkSession false 42 "r1") [])
    = (Return (i, s), w') ∧
    i = (0 `max` (current_idx (session_state (mkWorld Missing JsonMissing (mkSession false 42 "r1") []))
                  `min` (len ten_speeches - 1)))%Z ∧
    ten_speeches !! Z.to_nat i = Some s ∧
    w' = with_session_state
           (mkSession
              (show_intro (session_state (mkWorld Missing JsonMissing (mkSession false 42 "r1") [])))
              i
              (session_rater_id
                 (session_state (mkWorld Missing JsonMissing (mkSession false 42 "r1") []))))
           (mkWorld Missing JsonMissing (mkSession false 42 "r1") []) ∧
    (cursor_in_range (len ten_speeches) (mkWorld Missing JsonMissing (mkSession false 42 "r1") [])
     → w' = mkWorld Missing JsonMissing (mkSession false 42 "r1") []).
Proof.
  split; [discriminate|].
  apply (select_current_speech_clamps (mkWorld Missing JsonMissing (mkSession false 42 "r1") [])
           ten_speeches).
  discriminate.
Defined.

(** X16: a click on Previous at index 0, or on Next at the last index or
    beyond, does nothing: the button is disabled there, the cursor stays
    and no rerun is asked for. *)
Theorem navigation_is_blocked_at_the_ends (w : World) (total_speeches idx : Z) :
  navigation_buttons 0 total_speeches true false w = (Return tt, w) ∧
  ((total_speeches - 1 ≤ idx)%Z →
   navigation_buttons idx total_speeches false true w = (Return tt, w)).
Proof.
  split; [reflexivity|].
  intros Hlast. unfold navigation_buttons, st_button, bind, ret. cbn.
  rewrite Z.geb_leb, (proj2 (Z.leb_le _ _) Hlast). reflexivity.
Qed.

Lemma navigation_is_blocked_at_the_ends_witness :
  navigation_buttons 0 3 true false (world_with Missing) = (Return tt, world_with Missing) ∧
  (3 - 1 ≤ 2)%Z ∧
  navigation_buttons 2 3 false true (world_with Missing) = (Return tt, world_with Missing).
Proof.
  split; [reflexivity|]. split; [lia|].
  apply (proj2 (navigation_is_blocked_at_the_ends (world_with Missing) 3 2)); lia.
Defined.

(** X17: when the local index is the session's cursor and points into the
    list, the two navigation buttons keep the cursor in the list: either no
    button takes effect and the world is as before, or the run ends in a
    rerun with the cursor one step away; files and screen never change. *)
Theorem navigation_keeps_cursor_in_range (w : World) (total_speeches : Z)
    (previous_clicked next_clicked : bool) :
  cursor_in_range total_speeches w →
  ∃ flow w',
    navigation_buttons (current_idx (session_state w)) total_speeches
      previous_clicked next_clicked w = (flow, w') ∧
    cursor_in_range total_speeches w' ∧
    annotations_file w' = annotations_file w ∧
    screen w' = screen w ∧
    ((flow = Return tt ∧ w' = w)
     ∨ (flow = Rerun ∧
        (current_idx (session_state w') = current_idx (session_state w) - 1
         ∨ current_idx (session_state w') = current_idx (session_state w) + 1)%Z)).
Proof.
  intros [Hlo Hhi]. unfold navigation_buttons, st_button, bind.
  set (c := current_idx (session_state w)) in *.
  destruct previous_clicked; cbn [andb].
  - destruct (c =? 0)%Z eqn:E0; cbn [negb].
    + apply Z.eqb_eq in E0. destruct next_clicked; cbn [andb].
      * destruct (c >=? total_speeches - 1)%Z eqn:E1; cbn [negb].
        -- eexists _, _. split; [reflexivity|]. repeat split; try done. by left.
        -- rewrite Z.geb_leb in E1. apply Z.leb_gt in E1.
           eexists _, _. split; [reflexivity|]. unfold cursor_in_range. cbn. fold c.
           split; [lia|]. split; [done|]. split; [done|]. right. split; [done|]. by right.
      * eexists _, _. split; [reflexivity|]. repeat split; try done. by left.
    + apply Z.eqb_neq in E0.
      eexists _, _. split; [reflexivity|]. unfold cursor_in_range. cbn. fold c.
      split; [lia|]. split; [done|]. split; [done|]. right. split; [done|]. by left.
  - destruct next_clicked; cbn [andb].
    + destruct (c >=? total_speeches - 1)%Z eqn:E1; cbn [negb].
      * eexists _, _. split; [reflexivity|]. repeat split; try done. by left.
      * rewrite Z.geb_leb in E1. apply Z.leb_gt in E1.
        eexists _, _. split; [reflexivity|]. unfold cursor_in_range. cbn. fold c.
        split; [lia|]. split; [done|]. split; [done|]. right. split; [done|]. by right.
    + eexists _, _. split; [reflexivity|]. repeat split; try done. by left.
Qed.

Lemma navigation_keeps_cursor_in_range_witness :
  cursor_in_range 3 (mkWorld Missing JsonMissing (mkSession false 1 "r1") []) ∧
  ∃ flow w',
    navigation_buttons
      (current_idx (session_state (mkWorld Missing JsonMissing (mkSession false 1 "r1") []))) 3
      false true (mkWorld Missing JsonMissing (mkSession false 1 "r1") []) = (flow, w') ∧
    cursor_in_range 3 w' ∧
    annotations_file w' = annotations_file (mkWorld Missing JsonMissing (mkSession false 1 "r1") []) ∧
    screen w' = screen (mkWorld Missing JsonMissing (mkSession false 1 "r1") []) ∧
    ((flow = Return tt ∧ w' = mkWorld Missing JsonMissing (mkSession false 1 "r1") [])
     ∨ (flow = Rerun ∧
        (current_idx (session_state w')
         = current_idx (session_state (mkWorld Missing JsonMissing (mkSession false 1 "r1") [])) - 1
         ∨ current_idx (session_state w')
           = current_idx (session_state (mkWorld Missing JsonMissing (mkSession false 1 "r1") [])) + 1)%Z)).
Proof.
  assert (cursor_in_range 3 (mkWorld Missing JsonMissing (mkSession false 1 "r1") [])) as Hin.
  { unfold cursor_in_range. cbn. lia. }
  split; [exact Hin|].
  apply (navigation_keeps_cursor_in_range
           (mkWorld Missing JsonMissing (mkSession false 1 "r1") []) 3 false true Hin).
Defined.

(** * Properties of a submission *)

Section Strip.
Implicit Types (s : string) (l : list ascii).

Lemma chars_rev_app s1 s2 :
  list_ascii_of_string (String.rev_app s1 s2)
  = reverse (list_ascii_of_string s1) ++ list_ascii_of_string s2.
Proof.
  revert s2. induction s1 as [|c s1 IH]; intros s2; simpl; [done|].
  rewrite IH. simpl. by rewrite reverse_cons, <- (assoc_L (++)).
Qed.

Lemma chars_rev s :
  list_ascii_of_string (String.rev s) = reverse (list_ascii_of_string s).
Proof. unfold String.rev. rewrite chars_rev_app. simpl. by rewrite (right_id_L [] (++)). Qed.

Lemma lstrip_head s c :
  head (list_ascii_of_string (lstrip s)) = Some c → isspace c = false.
Proof.
  induction s as [|a s IH]; simpl; [done|].
  destruct (isspace a) eqn:E; [done|]. simpl. by intros [= <-].
Qed.

Lemma lstrip_suffix s :
  ∃ l, list_ascii_of_string s = l ++ list_ascii_of_string (lstrip s).
Proof.
  induction s as [|a s [l IH]]; simpl; [by exists []|].
  destruct (isspace a).
  - exists (a :: l). simpl. by rewrite IH.
  - by exists [].
Qed.

Lemma lstrip_last s c :
  last (list_ascii_of_string (lstrip s)) = Some c →
  last (list_ascii_of_string s) = Some c.
Proof.
  intros Hc. destruct (lstrip_suffix s) as [l ->].
  destruct (list_ascii_of_string (lstrip s)) as [|a t] eqn:E; [done|].
  rewrite last_app. by rewrite Hc.
Qed.

Lemma strip_trimmed s : trimmed (strip s).
Proof.
  intros c. unfold strip, rstrip. rewrite chars_rev.
  rewrite head_reverse, last_reverse. intros [Hc | Hc].
  - apply lstrip_last in Hc. rewrite chars_rev, last_reverse in Hc.
    by apply lstrip_head in Hc.
  - by apply lstrip_head in Hc.
Qed.

Lemma str_truthy_true s : str_truthy s = true ↔ s ≠ "".
Proof. destruct s; simpl; split; done. Qed.
End Strip.

(** [strip] gives a text whose first and last characters are not white
    space, and gives it back unchanged when stripped again. *)
Lemma strip_is_trimmed_and_stable (s : string) :
  trimmed (strip s) ∧ strip (strip s) = strip s.
Proof.
  split; [apply strip_trimmed|].
  pose proof (strip_trimmed s) as Ht. set (t := strip s) in *.
  assert (lstrip t = t) as Hl.
  { destruct t as [|a t']; [done|]. simpl.
    rewrite (Ht a) by (left; done). done. }
  unfold strip. rewrite Hl. unfold rstrip.
  assert (lstrip (String.rev t) = String.rev t) as Hr.
  { destruct (String.rev t) as [|a u] eqn:E; [done|]. simpl.
    assert (isspace a = false) as ->; [|done].
    apply Ht. right.
    assert (head (list_ascii_of_string (String.rev t)) = Some a) as Hh by (by rewrite E).
    by rewrite chars_rev, head_reverse in Hh. }
  rewrite Hr.
  rewrite <- (string_of_list_ascii_of_string (String.rev (String.rev t))).
  rewrite !chars_rev, reverse_involutive. apply string_of_list_ascii_of_string.
Qed.

Section Submission.
Variables (current_speech : Speech) (idx total : Z) (rater : string) (sc : Z) (just : string).

Let context_str :=
  if list_truthy (speech_context current_speech)
  then String.concat " | " (speech_context current_speech)
  else "".

Lemma form_submitted_run (w : World) :
  strip just ≠ "" →
  form_submitted current_speech idx total rater sc just true w
  = (update_annotation (speech_id current_speech) rater sc (strip just)
       context_str (text current_speech) ;;
     st_success "✅ Annotation saved!" ;;
     (if (idx <? total - 1)%Z then advance_current_idx else ret tt) ;;
     st_rerun) w.
Proof.
  intros Hne. unfold form_submitted.
  by rewrite (proj2 (str_truthy_true _) Hne).
Qed.
End Submission.

(** X19: a submission with a justification of the ASCII range whose
    stripped text is plain, for a speech and a rater that make a plain row,
    on a store that is absent or a table of plain rows, ends in a rerun
    after showing the success line; [get_annotation] then returns the score
    and the stripped justification for (speech, rater), and the cursor has
    moved one step forward unless the index was the last one, where it
    stays. *)
Theorem submission_saves_and_advances (w : World) (current_speech : Speech) (idx total : Z)
    (rater : string) (sc : Z) (just : string) :
  usable (annotations_file w) →
  plain_file (annotations_file w) →
  ascii_text just = true →
  plain_row (mkRow (speech_id current_speech) rater sc (strip just)
               (String.concat " | " (speech_context current_speech))
               (text current_speech)) = true →
  ∃ w',
    form_submitted current_speech idx total rater sc just true w = (Rerun, w') ∧
    get_annotation (speech_id current_speech) rater w'
    = (Return (Some (mkAnnotation sc (strip just))), w') ∧
    screen w' = screen w ++ [StSuccess "✅ Annotation saved!"] ∧
    current_idx (session_state w')
    = (if (idx <? total - 1)%Z then current_idx (session_state w) + 1
       else current_idx (session_state w))%Z ∧
    show_intro (session_state w') = show_intro (session_state w) ∧
    session_rater_id (session_state w') = session_rater_id (session_state w).
Proof.
  intros Hu _ _ Hrow.
  assert (strip just ≠ "") as Hne.
  { apply plain_row_fields in Hrow as (_ & _ & _ & Hj & _). cbn in Hj.
    intros E. by rewrite E in Hj. }
  rewrite form_submitted_run by done.
  unfold bind at 1. rewrite update_annotation_run by done.
  set (df' := upserted _ _ _ _ _ _ _).
  assert (head (filter (λ r, row_key r = (speech_id current_speech, rater)) df')
          = Some (mkRow (speech_id current_speech) rater sc (strip just)
                    (if list_truthy (speech_context current_speech)
                     then String.concat " | " (speech_context current_speech) else "")
                    (text current_speech))) as Hhead.
  { unfold df'. rewrite filter_mine_upserted. destruct (max 1 _) eqn:E; [lia|done]. }
  destruct (idx <? total - 1)%Z; eexists; (split; [reflexivity|]);
    (split; [|done]);
    erewrite get_annotation_Table by reflexivity; by rewrite Hhead.
Qed.

Lemma submission_saves_and_advances_witness :
  usable (annotations_file (world_with Missing)) ∧
  plain_file (annotations_file (world_with Missing)) ∧
  ascii_text " ok " = true ∧
  plain_row (mkRow (speech_id (mkSpeech "s1" "t" "p" "stmt" ["x"; "y"])) "r1" 4 (strip " ok ")
               (String.concat " | " (speech_context (mkSpeech "s1" "t" "p" "stmt" ["x"; "y"])))
               (text (mkSpeech "s1" "t" "p" "stmt" ["x"; "y"]))) = true ∧
  ∃ w',
    form_submitted (mkSpeech "s1" "t" "p" "stmt" ["x"; "y"]) 0 3 "r1" 4 " ok " true
      (world_with Missing) = (Rerun, w') ∧
    get_annotation (speech_id (mkSpeech "s1" "t" "p" "stmt" ["x"; "y"])) "r1" w'
    = (Return (Some (mkAnnotation 4 (strip " ok "))), w') ∧
    screen w' = screen (world_with Missing) ++ [StSuccess "✅ Annotation saved!"] ∧
    current_idx (session_state w')
    = (if (0 <? 3 - 1)%Z then current_idx (session_state (world_with Missing)) + 1
       else current_idx (session_state (world_with Missing)))%Z ∧
    show_intro (session_state w') = show_intro (session_state (world_with Missing)) ∧
    session_rater_id (session_state w') = session_rater_id (session_state (world_with Missing)).
Proof.
  split; [exact I|]. split; [reflexivity|]. split; [reflexivity|]. split; [reflexivity|].
  apply (submission_saves_and_advances (world_with Missing)
           (mkSpeech "s1" "t" "p" "stmt" ["x"; "y"]) 0 3 "r1" 4 " ok ");
    [exact I|reflexivity|reflexivity|reflexivity].
Defined.

(** X20: a submission with a justification of the ASCII range that is not
    blank, on a store file that cannot be read, raises the read error out
    of the form: nothing is written, no success line is shown, the cursor
    does not move and no rerun is asked for. *)
Theorem failed_submission_changes_nothing (w : World) (why : string) (current_speech : Speech)
    (idx total : Z) (rater : string) (sc : Z) (just : string) :
  annotations_file w = Unreadable why →
  strip just ≠ "" →
  ascii_text just = true →
  form_submitted current_speech idx total rater sc just true w = (Raise (CsvReadError why), w).
Proof.
  intros Hf Hne _. rewrite form_submitted_run by done.
  unfold bind at 1. unfold update_annotation.
  by rewrite (update_annotation_with_Unreadable _ _ _ _ _ _ _ _ why Hf).
Qed.

Lemma failed_submission_changes_nothing_witness :
  annotations_file (world_with (Unreadable "bad quoting")) = Unreadable "bad quoting" ∧
  strip "ok" ≠ "" ∧
  ascii_text "ok" = true ∧
  form_submitted (numbered_speech "0") 0 3 "r1" 4 "ok" true (world_with (Unreadable "bad quoting"))
  = (Raise (CsvReadError "bad quoting"), world_with (Unreadable "bad quoting")).
Proof.
  split; [reflexivity|]. split; [discriminate|]. split; [reflexivity|].
  apply (failed_submission_changes_nothing (world_with (Unreadable "bad quoting")) "bad quoting"
           (numbered_speech "0") 0 3 "r1" 4 "ok"); [reflexivity|discriminate|reflexivity].
Defined.

(** X21: whatever the store file, the justification and the submit flag,
    the submit branch leaves a cursor that pointed into the list pointing
    into the list. *)
Theorem submission_keeps_cursor_in_range (w : World) (current_speech : Speech) (total : Z)
    (rater : string) (sc : Z) (just : string) (submitted : bool) :
  cursor_in_range total w →
  cursor_in_range total
    (form_submitted current_speech (current_idx (session_state w)) total rater sc just
       submitted w).2.
Proof.
  intros Hin. destruct submitted; [|done].
  destruct (decide (strip just = "")) as [Hblank|Hne].
  - unfold form_submitted. by rewrite Hblank.
  - rewrite form_submitted_run by done. unfold bind at 1.
    destruct (annotations_file w) as [|why|df] eqn:Hf.
    + rewrite update_annotation_run by (by rewrite Hf).
      destruct (current_idx (session_state w) <? total - 1)%Z eqn:E; [|done].
      apply Z.ltb_lt in E. unfold cursor_in_range in *. cbn. lia.
    + unfold update_annotation.
      by rewrite (update_annotation_with_Unreadable _ _ _ _ _ _ _ _ why Hf).
    + rewrite update_annotation_run by (by rewrite Hf).
      destruct (current_idx (session_state w) <? total - 1)%Z eqn:E; [|done].
      apply Z.ltb_lt in E. unfold cursor_in_range in *. cbn. lia.
Qed.

Lemma submission_keeps_cursor_in_range_witness :
  cursor_in_range 3 (mkWorld Missing JsonMissing (mkSession false 2 "r1") []) ∧
  cursor_in_range 3
    (form_submitted (numbered_speech "2")
       (current_idx (session_state (mkWorld Missing JsonMissing (mkSession false 2 "r1") [])))
       3 "r1" 4 "ok" true (mkWorld Missing JsonMissing (mkSession false 2 "r1") [])).2.
Proof.
  assert (cursor_in_range 3 (mkWorld Missing JsonMissing (mkSession false 2 "r1") [])) as Hin.
  { unfold cursor_in_range. cbn. lia. }
  split; [exact Hin|].
  apply (submission_keeps_cursor_in_range
           (mkWorld Missing JsonMissing (mkSession false 2 "r1") [])
           (numbered_speech "2") 3 "r1" 4 "ok" true Hin).
Defined.

(** * Properties of the progress count *)

Section Progress.
Implicit Types (w : World) (df : DataFrame) (speeches : list Speech).

Lemma py_sum_ones {A} (l : list A) : py_sum (map (λ _, 1%Z) l) = len l.
Proof.
  unfold py_sum, len.
  assert (∀ a, foldl Z.add a (map (λ _, 1%Z) l) = (a + Z.of_nat (length l))%Z) as H.
  { induction l as [|x l IH]; intros a; simpl; [lia|]. rewrite IH. lia. }
  by rewrite H.
Qed.

Lemma length_filter_map {A B} (f : A → B) (P : B → Prop) `{∀ y, Decision (P y)} (l : list A) :
  length (filter P (map f l)) = length (filter (λ x, P (f x)) l).
Proof.
  induction l as [|x l IH]; [done|]. cbn [map]. rewrite !filter_cons.
  destruct (decide (P (f x))); simpl; by rewrite IH.
Qed.

Lemma length_filter_all {A} (P : A → Prop) `{∀ x, Decision (P x)} (l : list A) :
  length (filter P l) = length l ↔ Forall P l.
Proof.
  induction l as [|x l IH]; [by split; [constructor|]|].
  rewrite filter_cons, Forall_cons. pose proof (length_filter P l) as Hle.
  destruct (decide (P x)); simpl.
  - rewrite <- IH. split; [intros [=]; by split|intros [_ ->]; done].
  - split; [lia|tauto].
Qed.

Lemma key_in_upserted item rater sc just ctx stmt df (k : string * string) :
  k ∈ map row_key (upserted item rater sc just ctx stmt df)
  ↔ k ∈ map row_key df ∨ k = (item, rater).
Proof.
  rewrite keys_upserted. destruct (existsb (has_key item rater) df) eqn:E.
  - apply existsb_has_key_elem in E. split; [by left|]. by intros [?| ->].
  - rewrite elem_of_app, list_elem_of_singleton. done.
Qed.

(** The pairs in the file after a list of calls: those before, and those called. *)
Lemma upserts_keys calls : ∀ w,
  usable (annotations_file w) →
  ∃ w',
    upserts calls w = (Return tt, w') ∧
    usable (annotations_file w') ∧
    speeches_file w' = speeches_file w ∧
    ∀ k, k ∈ map row_key (rows_of (annotations_file w'))
         ↔ k ∈ map row_key (rows_of (annotations_file w)) ∨ k ∈ map call_key calls.
Proof.
  induction calls as [|c calls IH]; intros w Hu.
  - exists w. split; [done|]. split; [done|]. split; [done|].
    intros k. cbn [map]. rewrite elem_of_nil. tauto.
  - cbn [upserts]. unfold bind. rewrite update_annotation_run by done.
    destruct (IH (with_annotations_file
                    (Table (upserted (call_item c) (call_rater c) (call_score c)
                              (call_justification c) (call_context c) (call_statement c)
                              (rows_of (annotations_file w)))) w))
      as (w' & Hrun & Hu' & Hsp & Hkeys); [done|].
    exists w'. split; [done|]. split; [done|]. split; [done|].
    intros k. rewrite Hkeys. cbn [annotations_file with_annotations_file rows_of map].
    rewrite key_in_upserted, elem_of_cons. unfold call_key at 2. tauto.
Qed.

(** The items in the dict of a rater are those with a row of the rater. *)
Lemma bulk_lookup_membership rater w :
  ∃ annotations w',
    get_annotations_for_rater rater w = (Return annotations, w') ∧
    speeches_file w' = speeches_file w ∧
    ∀ sid, is_Some (annotations !! sid)
           ↔ (sid, rater) ∈ map row_key (rows_of (annotations_file w)).
Proof.
  destruct (annotations_file w) as [|why|df] eqn:Hf.
  - eexists _, _. split; [by apply get_annotations_for_rater_Missing|]. split; [done|].
    intros sid. rewrite lookup_empty. cbn. rewrite elem_of_nil. split; [by intros []|done].
  - eexists _, _. split; [by apply (get_annotations_for_rater_Unreadable _ _ why)|].
    split; [done|].
    intros sid. rewrite lookup_empty. cbn. rewrite elem_of_nil. split; [by intros []|done].
  - eexists _, _. split; [by apply (get_annotations_for_rater_Table _ _ df)|]. split; [done|].
    intros sid. rewrite collect_lookup, filter_item_of_rater. cbn [rows_of].
    rewrite <- existsb_has_key_elem. split.
    + intros [a Ha]. destruct (existsb (has_key sid rater) df) eqn:E; [done|].
      apply existsb_has_key_false in E. by rewrite (filter_mine_none _ _ _ E) in Ha.
    + intros E. apply existsb_exists in E as (r & Hin & Hr). apply has_key_true in Hr.
      assert (r ∈ filter (λ r, row_key r = (sid, rater)) df) as Hel.
      { apply list_elem_of_filter. split; [done|by apply list_elem_of_In]. }
      destruct (filter (λ r, row_key r = (sid, rater)) df) as [|r0 l] using rev_ind.
      * by apply elem_of_nil in Hel.
      * rewrite last_snoc. by eexists.
Qed.

(** What [progress] returns on a readable speeches file. *)
Lemma progress_run rater w (speeches : list Speech) :
  speeches_file w = JsonDoc (Some speeches) →
  ∃ w',
    progress rater w
    = (Return (take 3 speeches, len (take 3 speeches),
               len (filter (λ s, (speech_id s, rater)
                                 ∈ map row_key (rows_of (annotations_file w)))
                      (take 3 speeches))), w').
Proof.
  intros Hf. unfold progress, bind.
  unfold load_speeches. rewrite (load_speeches_with_run _ _ _ speeches Hf).
  change TEST_SPEECHES_COUNT with (Z.of_nat 3). rewrite slice_to_nat.
  change (if TEST_MODE then take 3 speeches else speeches) with (take 3 speeches).
  destruct (bulk_lookup_membership rater w) as (annotations & w' & -> & _ & Hmem).
  exists w'. unfold ret.
  rewrite py_sum_ones. unfold len. rewrite length_filter_map.
  assert (filter (λ x, is_Some (annotations !! speech_id x)) (take 3 speeches)
          = filter (λ s, (speech_id s, rater)
                         ∈ map row_key (rows_of (annotations_file w))) (take 3 speeches))
    as ->; [|done].
  apply list_filter_iff. intros s. apply Hmem.
Qed.
End Progress.

(** X22: on a readable speeches file and a store of plain rows, the progress
    block of [main] returns as count the number of loaded speeches that
    have a row of the rater in the store, and the test that ends the run on
    the completion page holds exactly when every loaded speech has such a
    row. *)
Theorem progress_counts_annotated_speeches (w : World) (rater : string) (speeches : list Speech) :
  speeches_file w = JsonDoc (Some speeches) →
  plain_file (annotations_file w) →
  ∃ completed w',
    progress rater w = (Return (take 3 speeches, len (take 3 speeches), completed), w') ∧
    completed
    = len (filter (λ s, (speech_id s, rater) ∈ map row_key (rows_of (annotations_file w)))
             (take 3 speeches)) ∧
    (all_completed completed (len (take 3 speeches)) = true
     ↔ Forall (λ s, (speech_id s, rater) ∈ map row_key (rows_of (annotations_file w)))
         (take 3 speeches)).
Proof.
  intros Hf _. destruct (progress_run rater w speeches Hf) as [w' Hrun].
  eexists _, w'. split; [exact Hrun|]. split; [reflexivity|].
  set (P := λ s, (speech_id s, rater) ∈ map row_key (rows_of (annotations_file w))).
  pose proof (length_filter P (take 3 speeches)) as Hle.
  rewrite <- (length_filter_all P). unfold all_completed, len.
  rewrite Z.geb_leb, Z.leb_le. lia.
Qed.

Lemma progress_counts_annotated_speeches_witness :
  speeches_file (mkWorld (Table [mkRow "s0" "r1" 4 "a" "c" "s"]) (JsonDoc (Some named_speeches)) fresh_session []) = JsonDoc (Some named_speeches) ∧
  plain_file (annotations_file (mkWorld (Table [mkRow "s0" "r1" 4 "a" "c" "s"]) (JsonDoc (Some named_speeches)) fresh_session [])) ∧
  ∃ completed w',
    progress "r1" (mkWorld (Table [mkRow "s0" "r1" 4 "a" "c" "s"]) (JsonDoc (Some named_speeches)) fresh_session [])
    = (Return (take 3 named_speeches, len (take 3 named_speeches), completed), w') ∧
    completed
    = len (filter (λ s, (speech_id s, "r1")
                        ∈ map row_key (rows_of (annotations_file (mkWorld (Table [mkRow "s0" "r1" 4 "a" "c" "s"]) (JsonDoc (Some named_speeches)) fresh_session []))))
             (take 3 named_speeches)) ∧
    (all_completed completed (len (take 3 named_speeches)) = true
     ↔ Forall (λ s, (speech_id s, "r1")
                    ∈ map row_key (rows_of (annotations_file (mkWorld (Table [mkRow "s0" "r1" 4 "a" "c" "s"]) (JsonDoc (Some named_speeches)) fresh_session []))))
         (take 3 named_speeches)).
Proof.
  split; [reflexivity|]. split; [reflexivity|].
  apply (progress_counts_annotated_speeches (mkWorld (Table [mkRow "s0" "r1" 4 "a" "c" "s"]) (JsonDoc (Some named_speeches)) fresh_session []) "r1" named_speeches); reflexivity.
Defined.

Example progress_one_of_three :
  (progress "r1" (mkWorld (Table [mkRow "s0" "r1" 4 "a" "c" "s"]) (JsonDoc (Some named_speeches)) fresh_session [])).1 = Return (take 3 named_speeches, 3%Z, 1%Z).
Proof. vm_compute. reflexivity. Qed.

(** X23: once [update_annotation] has been called with plain arguments for
    every loaded speech with the rater, in any order and among any other
    such calls, starting from a store that is absent or a table of plain
    rows, the progress block counts all loaded speeches and the completion
    test holds. *)
Theorem annotating_every_speech_completes (w : World) (rater : string)
    (speeches : list Speech) (calls : list Call) :
  usable (annotations_file w) →
  speeches_file w = JsonDoc (Some speeches) →
  Forall (λ s, (speech_id s, rater) ∈ map call_key calls) (take 3 speeches) →
  plain_file (annotations_file w) →
  forallb plain_call calls = true →
  ∃ w1 w2,
    upserts calls w = (Return tt, w1) ∧
    progress rater w1
    = (Return (take 3 speeches, len (take 3 speeches), len (take 3 speeches)), w2) ∧
    all_completed (len (take 3 speeches)) (len (take 3 speeches)) = true.
Proof.
  intros Hu Hf Hall _ _.
  destruct (upserts_keys calls w Hu) as (w1 & Hrun & _ & Hsp & Hkeys).
  rewrite <- Hsp in Hf.
  destruct (progress_run rater w1 speeches Hf) as [w2 Hprog].
  exists w1, w2. split; [done|]. split.
  - rewrite Hprog. do 3 f_equal. unfold len. f_equal.
    apply length_filter_all. eapply Forall_impl; [exact Hall|].
    intros s Hs. apply Hkeys. by right.
  - unfold all_completed. rewrite Z.geb_leb. by apply Z.leb_le.
Qed.

Lemma annotating_every_speech_completes_witness :
  usable (annotations_file (mkWorld Missing (JsonDoc (Some named_speeches)) fresh_session [])) ∧
  plain_file (annotations_file (mkWorld Missing (JsonDoc (Some named_speeches)) fresh_session [])) ∧
  forallb plain_call
    [mkCall "s2" "r1" 5 "a" "c" "s"; mkCall "s0" "r1" 3 "b" "c" "s";
     mkCall "s1" "r1" 2 "c" "c" "s"] = true ∧
  ∃ w1 w2,
    upserts [mkCall "s2" "r1" 5 "a" "c" "s"; mkCall "s0" "r1" 3 "b" "c" "s";
             mkCall "s1" "r1" 2 "c" "c" "s"]
      (mkWorld Missing (JsonDoc (Some named_speeches)) fresh_session []) = (Return tt, w1) ∧
    progress "r1" w1
    = (Return (take 3 named_speeches, len (take 3 named_speeches), len (take 3 named_speeches)),
       w2) ∧
    all_completed (len (take 3 named_speeches)) (len (take 3 named_speeches)) = true.
Proof.
  split; [exact I|]. split; [reflexivity|]. split; [reflexivity|].
  apply (annotating_every_speech_completes (mkWorld Missing (JsonDoc (Some named_speeches)) fresh_session []) "r1" named_speeches).
  - exact I.
  - reflexivity.
  - repeat constructor.
  - reflexivity.
  - reflexivity.
Defined.

(** X18: after a submission that saved (justification of the ASCII range,
    the row written plain, the store absent or a table of plain rows), the
    store holds a row of (speech, rater), and every such row carries the
    score, the stripped justification, which is not empty and has no white
    space at either end, the context strings joined with bars and the
    statement of the speech. *)
Theorem submission_stores_trimmed_justification (w : World) (current_speech : Speech)
    (idx total : Z) (rater : string) (sc : Z) (just : string) :
  usable (annotations_file w) →
  plain_file (annotations_file w) →
  ascii_text just = true →
  plain_row (mkRow (speech_id current_speech) rater sc (strip just)
               (String.concat " | " (speech_context current_speech))
               (text current_speech)) = true →
  ∃ w' df',
    form_submitted current_speech idx total rater sc just true w = (Rerun, w') ∧
    annotations_file w' = Table df' ∧
    mkRow (speech_id current_speech) rater sc (strip just)
      (String.concat " | " (speech_context current_speech)) (text current_speech) ∈ df' ∧
    ∀ r, r ∈ df' → row_key r = (speech_id current_speech, rater) →
         r = mkRow (speech_id current_speech) rater sc (strip just)
               (String.concat " | " (speech_context current_speech)) (text current_speech) ∧
         justification r ≠ "" ∧
         trimmed (justification r).
Proof.
  intros Hu _ _ Hrow.
  assert (strip just ≠ "") as Hne.
  { apply plain_row_fields in Hrow as (_ & _ & _ & Hj & _). cbn in Hj.
    intros E. by rewrite E in Hj. }
  rewrite form_submitted_run by done.
  unfold bind at 1. rewrite update_annotation_run by done.
  assert ((if list_truthy (speech_context current_speech)
           then String.concat " | " (speech_context current_speech) else "")
          = String.concat " | " (speech_context current_speech)) as ->.
  { by destruct (speech_context current_speech). }
  set (df' := upserted _ _ _ _ _ _ _).
  assert (∀ r, r ∈ df' → row_key r = (speech_id current_speech, rater) →
               r = mkRow (speech_id current_speech) rater sc (strip just)
                     (String.concat " | " (speech_context current_speech)) (text current_speech) ∧
               justification r ≠ "" ∧ trimmed (justification r)) as Hrows.
  { intros r Hin Hk. pose proof (mine_upserted _ _ _ _ _ _ _ _ Hin Hk) as ->.
    split; [done|]. split; [done|]. apply strip_trimmed. }
  pose proof (row_in_upserted (speech_id current_speech) rater sc (strip just)
                (String.concat " | " (speech_context current_speech)) (text current_speech)
                (rows_of (annotations_file w))) as Hin.
  destruct (idx <? total - 1)%Z; eexists _, df';
    (split; [reflexivity|]); (split; [reflexivity|]); (split; [exact Hin|exact Hrows]).
Qed.

Lemma submission_stores_trimmed_justification_witness :
  usable (annotations_file (world_with Missing)) ∧
  plain_file (annotations_file (world_with Missing)) ∧
  ascii_text " ok " = true ∧
  plain_row (mkRow (speech_id (mkSpeech "s1" "t" "p" "stmt" ["x"; "y"])) "r1" 4 (strip " ok ")
               (String.concat " | " (speech_context (mkSpeech "s1" "t" "p" "stmt" ["x"; "y"])))
               (text (mkSpeech "s1" "t" "p" "stmt" ["x"; "y"]))) = true ∧
  ∃ w' df',
    form_submitted (mkSpeech "s1" "t" "p" "stmt" ["x"; "y"]) 0 3 "r1" 4 " ok " true
      (world_with Missing) = (Rerun, w') ∧
    annotations_file w' = Table df' ∧
    mkRow (speech_id (mkSpeech "s1" "t" "p" "stmt" ["x"; "y"])) "r1" 4 (strip " ok ")
      (String.concat " | " (speech_context (mkSpeech "s1" "t" "p" "stmt" ["x"; "y"]))) (text (mkSpeech "s1" "t" "p" "stmt" ["x"; "y"])) ∈ df' ∧
    ∀ r, r ∈ df' → row_key r = (speech_id (mkSpeech "s1" "t" "p" "stmt" ["x"; "y"]), "r1") →
         r = mkRow (speech_id (mkSpeech "s1" "t" "p" "stmt" ["x"; "y"])) "r1" 4 (strip " ok ")
               (String.concat " | " (speech_context (mkSpeech "s1" "t" "p" "stmt" ["x"; "y"])))
               (text (mkSpeech "s1" "t" "p" "stmt" ["x"; "y"])) ∧
         justification r ≠ "" ∧
         trimmed (justification r).
Proof.
  split; [exact I|]. split; [reflexivity|]. split; [reflexivity|]. split; [reflexivity|].
  apply (submission_stores_trimmed_justification (world_with Missing)
           (mkSpeech "s1" "t" "p" "stmt" ["x"; "y"]) 0 3 "r1" 4 " ok ");
    [exact I|reflexivity|reflexivity|reflexivity].
Defined.


Example plain_text_samples :
  map plain_text ["s1"; "a"; "x | y"; "clear terms"; ""; "0"; "01"; "1e5"; "N/A"; "None"; "TRUE"; " 7 "]
  = [true; true; true; true; false; false; false; false; false; false; false; false].
Proof. vm_compute. reflexivity. Qed.
